(** * AlphaCouncil: workflow engine, durable state store and history ledger

    A shallow embedding of [src/App.tsx] (the symbol validator and
    [handleAnalyze]) and of [src/lib/storage.ts] (snapshot persistence and
    the history ledger), followed by the properties of the specification
    that were checked against them. *)

From Stdlib Require Import ZArith NArith Ascii String DecimalString.
From stdpp Require Import gmap list strings sorting.

Local Open Scope Z_scope.

(** ** JavaScript strings

    A JavaScript string is a sequence of UTF-16 code units.  String
    literals of the source are written here as UTF-8 text and decoded by
    [js]. *)

Module JS.

Abbreviation jsstring := (list N).

Definition surrogates (cp : N) : list N :=
  if (cp <? 65536)%N then [cp]
  else [(55296 + (cp - 65536) / 1024)%N; (56320 + (cp - 65536) mod 1024)%N].

Fixpoint utf8_decode (bs : list N) : list N :=
  match bs with
  | [] => []
  | b0 :: r0 =>
    if (b0 <? 128)%N then b0 :: utf8_decode r0
    else match r0 with
    | [] => []
    | b1 :: r1 =>
      if (b0 <? 224)%N
      then ((b0 mod 32) * 64 + b1 mod 64)%N :: utf8_decode r1
      else match r1 with
      | [] => []
      | b2 :: r2 =>
        if (b0 <? 240)%N
        then ((b0 mod 16) * 4096 + (b1 mod 64) * 64 + b2 mod 64)%N
               :: utf8_decode r2
        else match r2 with
        | [] => []
        | b3 :: r3 =>
          ((b0 mod 8) * 262144 + (b1 mod 64) * 4096
             + (b2 mod 64) * 64 + b3 mod 64)%N :: utf8_decode r3
        end
      end
    end
  end.

Definition js (s : string) : jsstring :=
  flat_map surrogates
    (utf8_decode (map N_of_ascii (list_ascii_of_string s))).

(** WhiteSpace and LineTerminator code points of ECMAScript, the ones
    [String.prototype.trim] strips. *)
Definition isWhiteSpace (c : N) : bool :=
  ((9 <=? c) && (c <=? 13) || (c =? 32) || (c =? 160) || (c =? 5760)
   || (8192 <=? c) && (c <=? 8202) || (c =? 8232) || (c =? 8233)
   || (c =? 8239) || (c =? 8287) || (c =? 12288) || (c =? 65279))%N.

Fixpoint trimStart (s : jsstring) : jsstring :=
  match s with
  | c :: r => if isWhiteSpace c then trimStart r else s
  | [] => []
  end.

Definition trimEnd (s : jsstring) : jsstring := rev (trimStart (rev s)).

Definition trim (s : jsstring) : jsstring := trimEnd (trimStart s).

(** Case mapping of one code unit.  Only the ASCII letters are mapped:
    outside ASCII the Unicode mapping never produces a digit, [s], [h],
    [z] or a white-space character, which is all the code below looks
    at. *)
Definition lowerUnit (c : N) : N :=
  if ((65 <=? c) && (c <=? 90))%N then (c + 32)%N else c.

Definition upperUnit (c : N) : N :=
  if ((97 <=? c) && (c <=? 122))%N then (c - 32)%N else c.

Definition toLowerCase (s : jsstring) : jsstring := map lowerUnit s.
Definition toUpperCase (s : jsstring) : jsstring := map upperUnit s.

Definition eqb (a b : jsstring) : bool := bool_decide (a = b).

Fixpoint startsWith (s p : jsstring) : bool :=
  match p, s with
  | [], _ => true
  | _ :: _, [] => false
  | a :: p', b :: s' => (a =? b)%N && startsWith s' p'
  end.

Definition substring (s : jsstring) (start : nat) : jsstring := drop start s.

Definition charAt (s : jsstring) (i : nat) : jsstring :=
  match s !! i with Some c => [c] | None => [] end.

Fixpoint includes (s p : jsstring) : bool :=
  startsWith s p ||
  match s with
  | [] => false
  | _ :: r => includes r p
  end.

(** [\d] of a regular expression. *)
Definition isDigit (c : N) : bool := ((48 <=? c) && (c <=? 57))%N.

(** The regular expression [/^\d{6}$/]. *)
Definition sixDigits (s : jsstring) : bool :=
  (length s =? 6)%nat && forallb isDigit s.

(** Decimal rendering of an integral number, as a template literal
    does it. *)
Definition ofNumber (z : Z) : jsstring :=
  map N_of_ascii (list_ascii_of_string (NilZero.string_of_int (Z.to_int z))).

End JS.

Import JS.

(** ** Types of [types.ts], as [App.tsx] and [storage.ts] use them *)

Inductive AgentRole :=
  | MACRO | INDUSTRY | TECHNICAL | FUNDS | FUNDAMENTAL
  | MANAGER_FUNDAMENTAL | MANAGER_MOMENTUM
  | RISK_SYSTEM | RISK_PORTFOLIO
  | GM.

#[global] Instance AgentRole_eq_dec : EqDecision AgentRole.
Proof. solve_decision. Defined.

Definition AgentRole_code (r : AgentRole) : nat :=
  match r with
  | MACRO => 0 | INDUSTRY => 1 | TECHNICAL => 2 | FUNDS => 3
  | FUNDAMENTAL => 4 | MANAGER_FUNDAMENTAL => 5 | MANAGER_MOMENTUM => 6
  | RISK_SYSTEM => 7 | RISK_PORTFOLIO => 8 | GM => 9
  end%nat.

Definition AgentRole_of_code (n : nat) : AgentRole :=
  match n with
  | 0 => MACRO | 1 => INDUSTRY | 2 => TECHNICAL | 3 => FUNDS
  | 4 => FUNDAMENTAL | 5 => MANAGER_FUNDAMENTAL | 6 => MANAGER_MOMENTUM
  | 7 => RISK_SYSTEM | 8 => RISK_PORTFOLIO | _ => GM
  end%nat.

#[global] Instance AgentRole_countable : Countable AgentRole.
Proof.
  apply (inj_countable' AgentRole_code AgentRole_of_code).
  intros []; reflexivity.
Defined.

Inductive AnalysisStatus := IDLE | FETCHING_DATA | RUNNING | COMPLETED | ERROR.

#[global] Instance AnalysisStatus_eq_dec : EqDecision AnalysisStatus.
Proof. solve_decision. Defined.

(** Role-keyed texts, [Partial<Record<AgentRole, string>>]. *)
Abbreviation Outputs := (gmap AgentRole jsstring).

(** Provider-keyed credentials, [ApiKeys]. *)
Abbreviation ApiKeys := (gmap string jsstring).

(** Object spread [{ ...a, ...b }]: the entries of [b] win. *)
Definition spread {K : Type} `{Countable K} {V : Type} (a b : gmap K V) : gmap K V :=
  b ∪ a.

(** ** The symbol validator of [App.tsx] *)

Record Validation := { valid : bool; message : option jsstring }.

Definition MSG_BAD_SUFFIX : jsstring :=
  Eval vm_compute in
    js "股票代码格式错误，应为6位数字（如: sh600519, sz000001）".
Definition MSG_BAD_LENGTH : jsstring :=
  Eval vm_compute in
    js "股票代码应为6位数字（如: 600519, 000001, 300750）".
Definition MSG_BAD_LEADING : jsstring :=
  Eval vm_compute in
    js "不是有效的沪深股市代码（沪市以6/9开头，深市以0/2/3开头）".

Definition allowedFirstDigits : list jsstring :=
  [js "0"; js "1"; js "2"; js "3"; js "6"; js "8"; js "9"].

Definition validateStockCode (symbol : jsstring) : Validation :=
  let code := toLowerCase (trim symbol) in
  if startsWith code (js "sh") || startsWith code (js "sz") then
    let num := substring code 2 in
    if negb (sixDigits num)
    then {| valid := false; message := Some MSG_BAD_SUFFIX |}
    else {| valid := true; message := None |}
  else if negb (sixDigits code)
  then {| valid := false; message := Some MSG_BAD_LENGTH |}
  else
    let firstDigit := charAt code 0 in
    if negb (existsb (JS.eqb firstDigit) allowedFirstDigits)
    then {| valid := false; message := Some MSG_BAD_LEADING |}
    else {| valid := true; message := None |}.

(** ** Collaborators

    [types.ts], [constants.ts] and the two service modules are outside the
    modelled files.  What [App.tsx] and [storage.ts] need from them is an
    interface: a type of agent configurations with the default template,
    a type of fetched reference data, and the five asynchronous calls. *)

Class Platform := {
  AgentConfig : Type;
  StockData : Type;
  DEFAULT_AGENTS : gmap AgentRole AgentConfig
}.

(** What an awaited promise settles to.  A rejection carries the thrown
    value: an [Error] instance with its message, or anything else. *)
Inductive Thrown := ErrorObject (msg : jsstring) | OtherValue.

Inductive Outcome (A : Type) :=
  | Resolved (a : A)
  | Rejected (e : Thrown).
Arguments Resolved {A} a.
Arguments Rejected {A} e.

Class Services `{Platform} := {
  fetchStockData : jsstring -> option jsstring -> Outcome (option StockData);
  formatStockDataForPrompt : StockData -> jsstring;
  runAnalystsStage :
    jsstring -> gmap AgentRole AgentConfig -> ApiKeys -> jsstring ->
    Outcome Outputs;
  runManagersStage :
    jsstring -> Outputs -> gmap AgentRole AgentConfig -> ApiKeys -> jsstring ->
    Outcome Outputs;
  runRiskStage :
    jsstring -> Outputs -> gmap AgentRole AgentConfig -> ApiKeys -> jsstring ->
    Outcome Outputs;
  runGMStage :
    jsstring -> Outputs -> gmap AgentRole AgentConfig -> ApiKeys -> jsstring ->
    Outcome Outputs
}.

(** ** The workflow engine of [App.tsx] *)

Section Engine.
Context `{Svc : Services}.

Record WorkflowState := {
  status : AnalysisStatus;
  currentStep : Z;
  stockSymbol : jsstring;
  stockDataContext : jsstring;
  outputs : Outputs;
  agentConfigs : gmap AgentRole AgentConfig;
  apiKeys : ApiKeys;
  error : option jsstring
}.

(** The external calls a run makes, with the arguments they receive. *)
Inductive Call :=
  | CallFetch (symbol : jsstring) (key : option jsstring)
  | CallAnalysts (symbol : jsstring) (configs : gmap AgentRole AgentConfig)
      (keys : ApiKeys) (context : jsstring)
  | CallManagers (symbol : jsstring) (prior : Outputs)
      (configs : gmap AgentRole AgentConfig) (keys : ApiKeys) (context : jsstring)
  | CallRisk (symbol : jsstring) (prior : Outputs)
      (configs : gmap AgentRole AgentConfig) (keys : ApiKeys) (context : jsstring)
  | CallGM (symbol : jsstring) (prior : Outputs)
      (configs : gmap AgentRole AgentConfig) (keys : ApiKeys) (context : jsstring).

(** The React state cell as a run sees it: its current value, every value
    [setState] has published so far (oldest first) and the external calls
    made so far (oldest first). *)
Record Run := {
  current : WorkflowState;
  published : list WorkflowState;
  calls : list Call
}.

Definition Async (A : Type) : Type := Run -> Outcome A * Run.

#[export] Instance Async_ret : MRet Async :=
  fun A a r => (Resolved a, r).

#[export] Instance Async_bind : MBind Async :=
  fun A B k m r =>
    match m r with
    | (Resolved a, r') => k a r'
    | (Rejected e, r') => (Rejected e, r')
    end.

(** [setState(prev => f(prev))]. *)
Definition setState (f : WorkflowState -> WorkflowState) : Async unit :=
  fun r =>
    let s := f (current r) in
    (Resolved tt,
     {| current := s; published := published r ++ [s]; calls := calls r |}).

(** [await] of an external call. *)
Definition await {A : Type} (c : Call) (settled : Outcome A) : Async A :=
  fun r =>
    (settled,
     {| current := current r; published := published r;
        calls := calls r ++ [c] |}).

(** [try { body } catch (error) { handler }]. *)
Definition tryCatch {A : Type} (body : Async A) (handler : Thrown -> Async A)
  : Async A :=
  fun r =>
    match body r with
    | (Resolved a, r') => (Resolved a, r')
    | (Rejected e, r') => handler e r'
    end.

Definition MSG_UNKNOWN : jsstring := Eval vm_compute in js "发生未知错误".

Definition MSG_NO_DATA (symbol : jsstring) : jsstring :=
  js "无法获取股票 " ++ toUpperCase symbol ++
  js " 的实时数据。请检查：
1. 股票代码是否正确（如: 600519, 000001, 300750）
2. 是否为沪深股市代码（不支持港股/美股）
3. API服务是否正常".

(** [handleAnalyze].  [state] is the render-time state the handler closes
    over; [prev] in each update is the state cell's value at the time the
    update is applied.  The console output is not modelled. *)
Definition handleAnalyze (state : WorkflowState)
    (symbol : jsstring) (apiKeys' : ApiKeys) : Async unit :=
  let validation := validateStockCode symbol in
  if negb (valid validation) then
    setState (fun prev =>
      {| status := ERROR; currentStep := currentStep prev;
         stockSymbol := stockSymbol prev;
         stockDataContext := stockDataContext prev;
         outputs := outputs prev; agentConfigs := agentConfigs prev;
         apiKeys := apiKeys prev; error := message validation |})
  else
    setState (fun prev =>
      {| status := FETCHING_DATA; currentStep := 0;
         stockSymbol := symbol;
         stockDataContext := stockDataContext prev;
         outputs := ∅; agentConfigs := agentConfigs prev;
         apiKeys := apiKeys'; error := None |});;
    tryCatch
      (stockData ← await (CallFetch symbol (apiKeys' !! "juhe"))
                     (fetchStockData symbol (apiKeys' !! "juhe"));
       match stockData with
       | None =>
         setState (fun prev =>
           {| status := ERROR; currentStep := currentStep prev;
              stockSymbol := stockSymbol prev;
              stockDataContext := stockDataContext prev;
              outputs := outputs prev; agentConfigs := agentConfigs prev;
              apiKeys := apiKeys prev; error := Some (MSG_NO_DATA symbol) |})
       | Some stockData =>
         let stockDataContext' := formatStockDataForPrompt stockData in
         setState (fun prev =>
           {| status := RUNNING; currentStep := 1;
              stockSymbol := stockSymbol prev;
              stockDataContext := stockDataContext';
              outputs := outputs prev; agentConfigs := agentConfigs prev;
              apiKeys := apiKeys prev; error := error prev |});;
         analystResults ←
           await (CallAnalysts symbol (agentConfigs state) apiKeys'
                    stockDataContext')
             (runAnalystsStage symbol (agentConfigs state) apiKeys'
                stockDataContext');
         setState (fun prev =>
           {| status := status prev; currentStep := 2;
              stockSymbol := stockSymbol prev;
              stockDataContext := stockDataContext prev;
              outputs := spread (outputs prev) analystResults;
              agentConfigs := agentConfigs prev;
              apiKeys := apiKeys prev; error := error prev |});;
         let outputsAfterStep1 := spread (outputs state) analystResults in
         managerResults ←
           await (CallManagers symbol outputsAfterStep1 (agentConfigs state)
                    apiKeys' stockDataContext')
             (runManagersStage symbol outputsAfterStep1 (agentConfigs state)
                apiKeys' stockDataContext');
         setState (fun prev =>
           {| status := status prev; currentStep := 3;
              stockSymbol := stockSymbol prev;
              stockDataContext := stockDataContext prev;
              outputs := spread (outputs prev) managerResults;
              agentConfigs := agentConfigs prev;
              apiKeys := apiKeys prev; error := error prev |});;
         let outputsAfterStep2 := spread outputsAfterStep1 managerResults in
         riskResults ←
           await (CallRisk symbol outputsAfterStep2 (agentConfigs state)
                    apiKeys' stockDataContext')
             (runRiskStage symbol outputsAfterStep2 (agentConfigs state)
                apiKeys' stockDataContext');
         setState (fun prev =>
           {| status := status prev; currentStep := 4;
              stockSymbol := stockSymbol prev;
              stockDataContext := stockDataContext prev;
              outputs := spread (outputs prev) riskResults;
              agentConfigs := agentConfigs prev;
              apiKeys := apiKeys prev; error := error prev |});;
         let outputsAfterStep3 := spread outputsAfterStep2 riskResults in
         gmResult ←
           await (CallGM symbol outputsAfterStep3 (agentConfigs state)
                    apiKeys' stockDataContext')
             (runGMStage symbol outputsAfterStep3 (agentConfigs state)
                apiKeys' stockDataContext');
         setState (fun prev =>
           {| status := COMPLETED; currentStep := 5;
              stockSymbol := stockSymbol prev;
              stockDataContext := stockDataContext prev;
              outputs := spread (outputs prev) gmResult;
              agentConfigs := agentConfigs prev;
              apiKeys := apiKeys prev; error := error prev |})
       end)
      (fun thrown =>
         setState (fun prev =>
           {| status := ERROR; currentStep := currentStep prev;
              stockSymbol := stockSymbol prev;
              stockDataContext := stockDataContext prev;
              outputs := outputs prev; agentConfigs := agentConfigs prev;
              apiKeys := apiKeys prev;
              error := Some (match thrown with
                             | ErrorObject msg => msg
                             | OtherValue => MSG_UNKNOWN
                             end) |})).

(** One run, [startRun(symbol, credentials)] of the specification: the
    handler of the latest render is invoked, so the state it closes over
    is the state cell's value. *)
Definition startRun (st : WorkflowState) (symbol : jsstring) (keys : ApiKeys)
  : Run :=
  snd (handleAnalyze st symbol keys
         {| current := st; published := []; calls := [] |}).

(** [reset] (its call of [clearState] is part of the storage model). *)
Definition reset (prev : WorkflowState) : WorkflowState :=
  {| status := IDLE; currentStep := 0; stockSymbol := [];
     stockDataContext := []; outputs := ∅;
     agentConfigs := agentConfigs prev; apiKeys := apiKeys prev;
     error := None |}.

End Engine.

(** ** Persistence, [src/lib/storage.ts] *)

Definition STORAGE_VERSION : jsstring := Eval vm_compute in js "v1".
Definition DATA_EXPIRY_MS : Z := 30 * 60 * 1000.

(** [Array.prototype.findIndex]: the first index whose element passes, or -1. *)
Fixpoint findIndex {A : Type} (p : A -> bool) (l : list A) : Z :=
  match l with
  | [] => -1
  | x :: r =>
    if p x then 0
    else let i := findIndex p r in if i <? 0 then -1 else i + 1
  end.

(** [Array.prototype.slice(0, n)]. *)
Definition slice0 {A : Type} (n : nat) (l : list A) : list A := take n l.

(** The text held under a storage key, seen through [JSON.parse]: the
    empty text, a text that [JSON.parse] rejects, or the text of an
    object of the expected shape ([JSON.stringify] followed by
    [JSON.parse] gives the object back). *)
Inductive Stored (A : Type) :=
  | EmptyText
  | Unparseable
  | Document (doc : A).
Arguments EmptyText {A}.
Arguments Unparseable {A}.
Arguments Document {A} doc.

Section Storage.
Context `{Plat : Platform}.

(** [Partial<WorkflowState>]: every field may be absent. *)
Record PartialState := {
  p_status : option AnalysisStatus;
  p_currentStep : option Z;
  p_stockSymbol : option jsstring;
  p_stockDataContext : option jsstring;
  p_outputs : option Outputs;
  p_agentConfigs : option (gmap AgentRole AgentConfig);
  p_apiKeys : option ApiKeys;
  p_error : option jsstring
}.

Record PersistedState := {
  version : jsstring;
  timestamp : Z;
  state : PartialState
}.

Record HistoryItem := {
  h_id : jsstring;
  h_stockSymbol : jsstring;
  h_status : AnalysisStatus;
  h_currentStep : Z;
  h_timestamp : Z;
  h_completedAt : option Z;
  h_gmDecision : option jsstring;
  h_outputs : Outputs
}.

Record HistoryStorage := {
  hs_version : jsstring;
  items : list HistoryItem
}.

(** [localStorage], restricted to the two keys of the module:
    [STORAGE_KEY] and [HISTORY_KEY].  [None] is a missing key. *)
Record LocalStorage := {
  workflow_item : option (Stored PersistedState);
  history_item : option (Stored HistoryStorage)
}.

Inductive Warning :=
  | FailedToSaveState
  | FailedToSaveToHistory
  | FailedToDeleteFromHistory.

(** The browser as the module sees it: the storage and the warnings
    written to the console (oldest first). *)
Record Browser := {
  localStorage : LocalStorage;
  console : list Warning
}.

Definition setWorkflow (v : option (Stored PersistedState)) (b : Browser)
  : Browser :=
  {| localStorage :=
       {| workflow_item := v;
          history_item := history_item (localStorage b) |};
     console := console b |}.

Definition setHistory (v : option (Stored HistoryStorage)) (b : Browser)
  : Browser :=
  {| localStorage :=
       {| workflow_item := workflow_item (localStorage b);
          history_item := v |};
     console := console b |}.

Definition warn (w : Warning) (b : Browser) : Browser :=
  {| localStorage := localStorage b; console := console b ++ [w] |}.

(** [saveState].  [writable] tells whether [localStorage.setItem]
    succeeds (it throws when the quota is exceeded); [now] is the value
    [Date.now()] returns. *)
Definition saveState (writable : bool) (now : Z) (st : WorkflowState)
    (b : Browser) : Browser :=
  let persisted :=
    {| version := STORAGE_VERSION;
       timestamp := now;
       state :=
         {| p_status := Some (status st);
            p_currentStep := Some (currentStep st);
            p_stockSymbol := Some (stockSymbol st);
            p_stockDataContext := Some (stockDataContext st);
            p_outputs := Some (outputs st);
            p_agentConfigs := Some (agentConfigs st);
            p_apiKeys := None;
            p_error := None |} |} in
  if writable then setWorkflow (Some (Document persisted)) b
  else warn FailedToSaveState b.

(** [loadState]: the result and the browser it leaves. *)
Definition loadState (now : Z) (b : Browser) : option PartialState * Browser :=
  match workflow_item (localStorage b) with
  | None => (None, b)
  | Some EmptyText => (None, b)
  | Some Unparseable => (None, b)
  | Some (Document persisted) =>
    if negb (JS.eqb (version persisted) STORAGE_VERSION)
    then (None, setWorkflow None b)
    else if now - timestamp persisted >? DATA_EXPIRY_MS
    then (None, setWorkflow None b)
    else (Some (state persisted), b)
  end.

Definition clearState (b : Browser) : Browser := setWorkflow None b.

(** The comparator [(a, b) => b.timestamp - a.timestamp] under the stable
    [Array.prototype.sort]: descending time stamps, equal ones in their
    stored order. *)
Fixpoint insertByTimestamp (x : HistoryItem) (l : list HistoryItem)
  : list HistoryItem :=
  match l with
  | [] => [x]
  | y :: r =>
    if h_timestamp y - h_timestamp x <=? 0 then x :: l
    else y :: insertByTimestamp x r
  end.

Definition sortByTimestampDesc (l : list HistoryItem) : list HistoryItem :=
  foldr insertByTimestamp [] l.

Definition getHistory (b : Browser) : list HistoryItem * Browser :=
  match history_item (localStorage b) with
  | None => ([], b)
  | Some EmptyText => ([], b)
  | Some Unparseable => ([], b)
  | Some (Document data) =>
    if negb (JS.eqb (hs_version data) STORAGE_VERSION)
    then ([], setHistory None b)
    else (sortByTimestampDesc (items data), b)
  end.

Definition MARK_BUY : jsstring := Eval vm_compute in js "🟢 买入".
Definition MARK_SELL : jsstring := Eval vm_compute in js "🔴 卖出".
Definition MARK_HOLD : jsstring := Eval vm_compute in js "🟡 观望".
Definition LABEL_ANALYZING : jsstring := Eval vm_compute in js "分析中".
Definition LABEL_BUY : jsstring := Eval vm_compute in js "买入".
Definition LABEL_SELL : jsstring := Eval vm_compute in js "卖出".
Definition LABEL_HOLD : jsstring := Eval vm_compute in js "观望".

Definition gmDecisionOf (out : Outputs) : jsstring :=
  let gmOutput := default [] (out !! GM) in
  if includes gmOutput MARK_BUY then LABEL_BUY
  else if includes gmOutput MARK_SELL then LABEL_SELL
  else if includes gmOutput MARK_HOLD then LABEL_HOLD
  else LABEL_ANALYZING.

(** The three successive readings of [Date.now()] in [saveToHistory]. *)
Record Clock := { t_id : Z; t_stamp : Z; t_done : Z }.

Definition newItemOf (clk : Clock) (st : WorkflowState) : HistoryItem :=
  {| h_id := stockSymbol st ++ js "-" ++ ofNumber (t_id clk);
     h_stockSymbol := stockSymbol st;
     h_status := status st;
     h_currentStep := currentStep st;
     h_timestamp := t_stamp clk;
     h_completedAt :=
       if bool_decide (status st = COMPLETED) then Some (t_done clk) else None;
     h_gmDecision := Some (gmDecisionOf (outputs st));
     h_outputs := outputs st |}.

Definition sameOpenRun (st : WorkflowState) (item : HistoryItem) : bool :=
  JS.eqb (h_stockSymbol item) (stockSymbol st)
  && negb (bool_decide (h_status item = COMPLETED)).

(** [saveToHistory]. *)
Definition saveToHistory (writable : bool) (clk : Clock) (st : WorkflowState)
    (b : Browser) : Browser :=
  let '(history, b) := getHistory b in
  let newItem := newItemOf clk st in
  let existingIndex := findIndex (sameOpenRun st) history in
  let history :=
    if 0 <=? existingIndex
    then <[Z.to_nat existingIndex := newItem]> history
    else newItem :: history in
  let trimmed := slice0 50 history in
  let data := {| hs_version := STORAGE_VERSION; items := trimmed |} in
  if writable then setHistory (Some (Document data)) b
  else warn FailedToSaveToHistory b.

Definition deleteFromHistory (writable : bool) (id : jsstring) (b : Browser)
  : Browser :=
  let '(history, b) := getHistory b in
  let filtered := filter (fun item => h_id item ≠ id) history in
  let data := {| hs_version := STORAGE_VERSION; items := filtered |} in
  if writable then setHistory (Some (Document data)) b
  else warn FailedToDeleteFromHistory b.

Definition clearHistory (b : Browser) : Browser := setHistory None b.

(** [restoreFromHistory].  The copy of the default template made through
    JSON has the template's value. *)
Definition restoreFromHistory (item : HistoryItem) : PartialState :=
  {| p_stockSymbol := Some (h_stockSymbol item);
     p_status := Some (h_status item);
     p_currentStep := Some (h_currentStep item);
     p_outputs := Some (h_outputs item);
     p_stockDataContext := Some [];
     p_agentConfigs := Some DEFAULT_AGENTS;
     p_apiKeys := Some ∅;
     p_error := None |}.

(** [getInitialState]; [a ?? b] is [default b a]. *)
Definition getInitialState (now : Z) (b : Browser) : WorkflowState * Browser :=
  let '(persisted, b) := loadState now b in
  ({| status := default IDLE (persisted ≫= p_status);
      currentStep := default 0 (persisted ≫= p_currentStep);
      stockSymbol := default [] (persisted ≫= p_stockSymbol);
      stockDataContext := default [] (persisted ≫= p_stockDataContext);
      outputs := default ∅ (persisted ≫= p_outputs);
      agentConfigs := default DEFAULT_AGENTS (persisted ≫= p_agentConfigs);
      apiKeys := ∅;
      error := None |}, b).

(** [handleRestoreFromHistory] of [App.tsx]: the state the component
    adopts when a history record is restored.  [restoreFromHistory] sets
    every field read here, so the defaults are never taken. *)
Definition handleRestoreFromHistory (item : HistoryItem) : WorkflowState :=
  let restored := restoreFromHistory item in
  {| status := IDLE;
     currentStep := 0;
     stockSymbol := default [] (p_stockSymbol restored);
     stockDataContext := [];
     outputs := default ∅ (p_outputs restored);
     agentConfigs := default DEFAULT_AGENTS (p_agentConfigs restored);
     apiKeys := ∅;
     error := None |}.

End Storage.

(** ** Reading a ledger *)

(** Most recent first. *)
Definition Descending (l : list HistoryItem) : Prop :=
  StronglySorted (fun a b => h_timestamp b <= h_timestamp a) l.

(** The records of a ledger that are about [symbol]. *)
Definition entriesFor (symbol : jsstring) (l : list HistoryItem)
  : list HistoryItem :=
  filter (fun it => h_stockSymbol it = symbol) l.

(** The records the storage holds under the ledger key, in stored order;
    none when the key is missing or its content unusable. *)
Definition storedItems `{Plat : Platform} (b : Browser) : list HistoryItem :=
  match history_item (localStorage b) with
  | Some (Document data) => items data
  | _ => []
  end.

(** ** The subject-identifier grammar, as the specification words it

    An optional two-letter market prefix (one of two fixed values)
    followed by exactly six digits, or six digits alone whose first digit
    belongs to a fixed allowed set. *)

Definition marketPrefixes : list jsstring := [js "sh"; js "sz"].

Definition allowedLeadingDigits : list N := [48; 49; 50; 51; 54; 56; 57]%N.

Definition IsDigit (c : N) : Prop := (48 <= c <= 57)%N.

Definition SixDigits (d : jsstring) : Prop := length d = 6%nat /\ Forall IsDigit d.

Definition SymbolGrammar (code : jsstring) : Prop :=
  (exists p d, p ∈ marketPrefixes /\ code = p ++ d /\ SixDigits d)
  \/ (SixDigits code /\ exists c, head code = Some c /\ c ∈ allowedLeadingDigits).

(** The normal form the validator works on. *)
Definition normalise (symbol : jsstring) : jsstring := toLowerCase (trim symbol).

(** ** Scenarios of a run *)

Section Scenarios.
Context `{Svc : Services}.

(** What the [catch] clause of [handleAnalyze] stores for a thrown value. *)
Definition caughtMessage (thrown : Thrown) : jsstring :=
  match thrown with
  | ErrorObject msg => msg
  | OtherValue => MSG_UNKNOWN
  end.

(** [StageThrows st symbol keys data done e]: in the run started from
    [st] whose fetch gave [data], the stage calls resolve to the results
    [done] (in stage order) and the next stage call throws [e].  The
    arguments are the ones [handleAnalyze] passes. *)
Inductive StageThrows (st : WorkflowState) (symbol : jsstring) (keys : ApiKeys)
    (data : StockData) : list Outputs -> Thrown -> Prop :=
  | throws_analysts e :
      runAnalystsStage symbol (agentConfigs st) keys
        (formatStockDataForPrompt data) = Rejected e ->
      StageThrows st symbol keys data [] e
  | throws_managers r1 e :
      runAnalystsStage symbol (agentConfigs st) keys
        (formatStockDataForPrompt data) = Resolved r1 ->
      runManagersStage symbol (spread (outputs st) r1) (agentConfigs st) keys
        (formatStockDataForPrompt data) = Rejected e ->
      StageThrows st symbol keys data [r1] e
  | throws_risk r1 r2 e :
      runAnalystsStage symbol (agentConfigs st) keys
        (formatStockDataForPrompt data) = Resolved r1 ->
      runManagersStage symbol (spread (outputs st) r1) (agentConfigs st) keys
        (formatStockDataForPrompt data) = Resolved r2 ->
      runRiskStage symbol (spread (spread (outputs st) r1) r2)
        (agentConfigs st) keys (formatStockDataForPrompt data) = Rejected e ->
      StageThrows st symbol keys data [r1; r2] e
  | throws_gm r1 r2 r3 e :
      runAnalystsStage symbol (agentConfigs st) keys
        (formatStockDataForPrompt data) = Resolved r1 ->
      runManagersStage symbol (spread (outputs st) r1) (agentConfigs st) keys
        (formatStockDataForPrompt data) = Resolved r2 ->
      runRiskStage symbol (spread (spread (outputs st) r1) r2)
        (agentConfigs st) keys (formatStockDataForPrompt data) = Resolved r3 ->
      runGMStage symbol (spread (spread (spread (outputs st) r1) r2) r3)
        (agentConfigs st) keys (formatStockDataForPrompt data) = Rejected e ->
      StageThrows st symbol keys data [r1; r2; r3] e.

(** The prior-outputs argument of the first [runManagersStage] call of a
    run, if the run made one. *)
Definition managersPrior (r : Run) : option Outputs :=
  head (omap (fun c => match c with
                       | CallManagers _ prior _ _ _ => Some prior
                       | _ => None
                       end) (calls r)).

Definition riskPrior (r : Run) : option Outputs :=
  head (omap (fun c => match c with
                       | CallRisk _ prior _ _ _ => Some prior
                       | _ => None
                       end) (calls r)).

Definition gmPrior (r : Run) : option Outputs :=
  head (omap (fun c => match c with
                       | CallGM _ prior _ _ _ => Some prior
                       | _ => None
                       end) (calls r)).

End Scenarios.

(** ** A concrete platform, for examples *)

Definition samplePlatform : Platform :=
  {| AgentConfig := Z; StockData := jsstring; DEFAULT_AGENTS := {[ GM := 7 ]} |}.

Definition sampleAnalysts : Outputs := {[ MACRO := js "macro view" ]}.
Definition sampleManagers : Outputs := {[ MANAGER_MOMENTUM := js "momentum view" ]}.
Definition sampleRisk : Outputs := {[ RISK_SYSTEM := js "risk view" ]}.
Definition sampleGM : Outputs := {[ GM := MARK_BUY ]}.

(** Services whose risk stage settles as [risk]; the others resolve. *)
Definition sampleServices (risk : Outcome Outputs) : @Services samplePlatform :=
  @Build_Services samplePlatform
    (fun _ _ => Resolved (Some (js "quote")))
    (fun d => d)
    (fun _ _ _ _ => Resolved sampleAnalysts)
    (fun _ _ _ _ _ => Resolved sampleManagers)
    (fun _ _ _ _ _ => risk)
    (fun _ _ _ _ _ => Resolved sampleGM).

Definition sampleIdle : @WorkflowState samplePlatform :=
  {| status := IDLE; currentStep := 0; stockSymbol := [];
     stockDataContext := []; outputs := ∅; agentConfigs := DEFAULT_AGENTS;
     apiKeys := ∅; error := None |}.

(** A completed record of an earlier run, as the ledger holds it. *)
Definition sampleRecord : HistoryItem :=
  {| h_id := js "600519-1000"; h_stockSymbol := js "600519";
     h_status := COMPLETED; h_currentStep := 5; h_timestamp := 1000;
     h_completedAt := Some 1000; h_gmDecision := Some LABEL_BUY;
     h_outputs := {[ GM := MARK_BUY ]} |}.

Definition emptyBrowser : @Browser samplePlatform :=
  {| localStorage := {| workflow_item := None; history_item := None |};
     console := [] |}.

(** An unfinished record of the same symbol as [sampleRecord]. *)
Definition sampleOpenRecord : HistoryItem :=
  {| h_id := js "600519-2000"; h_stockSymbol := js "600519";
     h_status := ERROR; h_currentStep := 3; h_timestamp := 2000;
     h_completedAt := None; h_gmDecision := Some LABEL_ANALYZING;
     h_outputs := sampleAnalysts |}.

Definition sampleItemAt (t : Z) : HistoryItem :=
  {| h_id := js "000001-" ++ ofNumber t; h_stockSymbol := js "000001";
     h_status := COMPLETED; h_currentStep := 5; h_timestamp := t;
     h_completedAt := Some t; h_gmDecision := Some LABEL_HOLD;
     h_outputs := ∅ |}.

(** A ledger of [n] completed records with time stamps 1 to [n]. *)
Definition sampleLedger (n : nat) : list HistoryItem :=
  map (fun k => sampleItemAt (Z.of_nat k)) (seq 1 n).

Definition browserWith (l : list HistoryItem) : @Browser samplePlatform :=
  setHistory (Some (Document {| hs_version := STORAGE_VERSION; items := l |}))
    emptyBrowser.

(** The state of a completed run on 600519. *)
Definition sampleCompleted : @WorkflowState samplePlatform :=
  {| status := COMPLETED; currentStep := 5; stockSymbol := js "600519";
     stockDataContext := js "quote"; outputs := sampleGM;
     agentConfigs := DEFAULT_AGENTS; apiKeys := ∅; error := None |}.

(** The state of a run on 600519 that stopped in the third stage. *)
Definition sampleFailed : @WorkflowState samplePlatform :=
  {| status := ERROR; currentStep := 3; stockSymbol := js "600519";
     stockDataContext := js "quote"; outputs := sampleAnalysts;
     agentConfigs := DEFAULT_AGENTS; apiKeys := ∅;
     error := Some (js "quota") |}.

Definition sampleClock (t : Z) : Clock := {| t_id := t; t_stamp := t; t_done := t |}.

(** ** The other handlers and effects of [App.tsx] *)

(** Truthiness of a string: only the empty string is falsy. *)
Definition truthy (s : jsstring) : bool :=
  match s with
  | [] => false
  | _ :: _ => true
  end.

Section AppHandlers.
Context `{Plat : Platform}.

(** The updater of [handleConfigChange]. *)
Definition handleConfigChange (role : AgentRole) (newConfig : AgentConfig)
    (prev : WorkflowState) : WorkflowState :=
  {| status := status prev; currentStep := currentStep prev;
     stockSymbol := stockSymbol prev;
     stockDataContext := stockDataContext prev;
     outputs := outputs prev;
     agentConfigs := <[role := newConfig]> (agentConfigs prev);
     apiKeys := apiKeys prev; error := error prev |}.

(** The whole of [reset]: [clearState()] on the storage, then the state
    update modelled by [reset]. *)
Definition resetApp (prev : WorkflowState) (b : Browser)
  : WorkflowState * Browser :=
  (reset prev, clearState b).

(** The body of the first effect (dependencies: [state]). *)
Definition autoSaveEffect (writable : bool) (now : Z) (st : WorkflowState)
    (b : Browser) : Browser :=
  if bool_decide (status st ≠ IDLE) then saveState writable now st b else b.

(** The body of the second effect (dependencies: [state.status]). *)
Definition historyEffect (writable : bool) (clk : Clock) (st : WorkflowState)
    (b : Browser) : Browser :=
  if bool_decide (status st = COMPLETED) && truthy (stockSymbol st)
  then saveToHistory writable clk st b else b.

(** [loadHistory]: the list the component's [history] state is set to. *)
Definition loadHistory (b : Browser) : list HistoryItem * Browser :=
  getHistory b.

Definition handleDeleteHistory (writable : bool) (id : jsstring) (b : Browser)
  : list HistoryItem * Browser :=
  loadHistory (deleteFromHistory writable id b).

Definition handleClearHistory (b : Browser) : list HistoryItem * Browser :=
  loadHistory (clearHistory b).

(** The state [getInitialState] builds when [loadState] returns nothing. *)
Definition coldStart : WorkflowState :=
  {| status := IDLE; currentStep := 0; stockSymbol := [];
     stockDataContext := []; outputs := ∅; agentConfigs := DEFAULT_AGENTS;
     apiKeys := ∅; error := None |}.

End AppHandlers.

(** ** Observing a run *)

Inductive CallKind := KFetch | KAnalysts | KManagers | KRisk | KGM.

Definition callKind `{Plat : Platform} (c : Call) : CallKind :=
  match c with
  | CallFetch _ _ => KFetch
  | CallAnalysts _ _ _ _ => KAnalysts
  | CallManagers _ _ _ _ _ => KManagers
  | CallRisk _ _ _ _ _ => KRisk
  | CallGM _ _ _ _ _ => KGM
  end.

(** The fixed order of the external calls of a run. *)
Definition stageOrder : list CallKind :=
  [KFetch; KAnalysts; KManagers; KRisk; KGM].

(** Whether a call lets the run go on: the fetch resolved to data, a
    stage resolved. *)
Definition callSucceeded `{Svc : Services} (c : Call) : bool :=
  match c with
  | CallFetch symbol key =>
    match fetchStockData symbol key with
    | Resolved (Some _) => true
    | _ => false
    end
  | CallAnalysts symbol configs keys context =>
    match runAnalystsStage symbol configs keys context with
    | Resolved _ => true
    | Rejected _ => false
    end
  | CallManagers symbol prior configs keys context =>
    match runManagersStage symbol prior configs keys context with
    | Resolved _ => true
    | Rejected _ => false
    end
  | CallRisk symbol prior configs keys context =>
    match runRiskStage symbol prior configs keys context with
    | Resolved _ => true
    | Rejected _ => false
    end
  | CallGM symbol prior configs keys context =>
    match runGMStage symbol prior configs keys context with
    | Resolved _ => true
    | Rejected _ => false
    end
  end.

(** [p] occurs in [s], the meaning of [String.prototype.includes]. *)
Definition Substring (p s : jsstring) : Prop :=
  exists a b, s = a ++ p ++ b.

(** Every record of a ledger is of a completed run. *)
Definition AllCompleted (l : list HistoryItem) : Prop :=
  Forall (fun it => h_status it = COMPLETED) l.

(** Sample services whose fetch settles as [fetched]. *)
Definition sampleServicesFetch (fetched : Outcome (option jsstring))
  : @Services samplePlatform :=
  @Build_Services samplePlatform
    (fun _ _ => fetched)
    (fun d => d)
    (fun _ _ _ _ => Resolved sampleAnalysts)
    (fun _ _ _ _ _ => Resolved sampleManagers)
    (fun _ _ _ _ _ => Resolved sampleRisk)
    (fun _ _ _ _ _ => Resolved sampleGM).

(** ** The Gemini route of the API (first unnamed source file)

    The handler reads [req.method] and the fields of [req.body], sets
    headers, a status and a payload on [res], and makes at most one call
    to the SDK.  Numbers are kept abstract: all the handler does with one
    is test it for zero.  The SDK is taken to fail with [Error]
    instances.  The warning printed when the module is loaded without a
    key, and the console output, are not modelled. *)

Module Gemini.

Class JsNumbers := {
  Num : Type;
  isZero : Num -> bool;
  (** the literal [0.7] *)
  num_0_7 : Num
}.

(** How the SDK call settles. *)
Inductive Settled (A : Type) :=
  | Fulfilled (a : A)
  | Failed (message : jsstring).
Arguments Fulfilled {A} a.
Arguments Failed {A} message.

Section Handler.
Context `{Numbers : JsNumbers}.

(** A value parsed from JSON. *)
#[local] Unset Elimination Schemes.
Inductive Json :=
  | JNull
  | JBool (b : bool)
  | JNumber (n : Num)
  | JString (s : jsstring)
  | JArray (l : list Json)
  | JObject (fields : list (jsstring * Json)).
#[local] Set Elimination Schemes.

(** Truthiness; [None] is [undefined]. *)
Definition truthyValue (v : option Json) : bool :=
  match v with
  | None => false
  | Some JNull => false
  | Some (JBool b) => b
  | Some (JNumber n) => negb (isZero n)
  | Some (JString s) => truthy s
  | Some (JArray _) => true
  | Some (JObject _) => true
  end.

(** [a || b]. *)
Definition jsOr (a b : option Json) : option Json :=
  if truthyValue a then a else b.

(** The fields the handler takes from [req.body]; a body that is not an
    object has none of them. *)
Record Body := {
  model : option Json;
  prompt : option Json;
  temperature : option Json;
  tools : option Json;
  apiKey : option Json
}.

(** [body] is [None] when [req.body] is [undefined] or [null]. *)
Record Request := {
  method : jsstring;
  body : option Body
}.

(** The arguments of the one SDK call: the client options and the
    [generateContent] parameters. *)
Record GenerateCall := {
  c_apiKey : option Json;
  c_baseUrl : jsstring;
  c_model : option Json;
  c_contents : option Json;
  c_temperature : option Json;
  c_tools : option Json
}.

(** What is sent: nothing but the end of the response, or an object with
    [success] and either [text] or [error]. *)
Inductive Payload :=
  | Ended
  | JsonPayload (success : bool) (text : option jsstring)
      (error : option jsstring).

Record Response := {
  headers : list (jsstring * jsstring);
  statusCode : Z;
  payload : Payload
}.

(** The handler's outcome: a response and the SDK calls made, or an
    exception that escapes the handler. *)
Inductive Result :=
  | Responded (res : Response) (calls : list GenerateCall)
  | Crashed.

Definition corsHeaders : list (jsstring * jsstring) :=
  [(js "Access-Control-Allow-Origin", js "*");
   (js "Access-Control-Allow-Methods", js "POST, OPTIONS");
   (js "Access-Control-Allow-Headers", js "Content-Type")].

Definition MSG_METHOD : jsstring := js "Method not allowed".
Definition MSG_NO_KEY : jsstring :=
  js "未配置 Gemini API Key。请在 Vercel 项目设置中配置 GEMINI_API_KEY 环境变量，或在前端临时输入 API Key".
Definition BASE_URL : jsstring := js "https://api.zhizengzeng.com/v1".
Definition DEFAULT_MODEL : Json := JString (js "gemini-2.5-flash").
Definition DEFAULT_TEMPERATURE : Json := JNumber num_0_7.
Definition DEFAULT_TOOLS : Json :=
  JArray [JObject [(js "googleSearch", JObject [])]].

(** [handler(req, res)].  [GEMINI_API_KEY] is the environment variable
    ([None] when unset); [generateContent] is the SDK call, which
    resolves to the [text] of the response ([None] when it has none). *)
Definition handler (GEMINI_API_KEY : option jsstring)
    (generateContent : GenerateCall -> Settled (option jsstring))
    (req : Request) : Result :=
  if JS.eqb (method req) (js "OPTIONS") then
    Responded {| headers := corsHeaders; statusCode := 200;
                 payload := Ended |} []
  else if negb (JS.eqb (method req) (js "POST")) then
    Responded {| headers := corsHeaders; statusCode := 405;
                 payload := JsonPayload false None (Some MSG_METHOD) |} []
  else
    match body req with
    | None => Crashed
    | Some b =>
      let effectiveApiKey := jsOr (JString <$> GEMINI_API_KEY) (apiKey b) in
      if negb (truthyValue effectiveApiKey) then
        Responded {| headers := corsHeaders; statusCode := 500;
                     payload := JsonPayload false None (Some MSG_NO_KEY) |} []
      else
        let call :=
          {| c_apiKey := effectiveApiKey;
             c_baseUrl := BASE_URL;
             c_model := jsOr (model b) (Some DEFAULT_MODEL);
             c_contents := prompt b;
             c_temperature := jsOr (temperature b) (Some DEFAULT_TEMPERATURE);
             c_tools := jsOr (tools b) (Some DEFAULT_TOOLS) |} in
        match generateContent call with
        | Fulfilled text =>
          Responded
            {| headers := corsHeaders; statusCode := 200;
               payload :=
                 JsonPayload true
                   (Some (match text with
                          | Some t => if truthy t then t else []
                          | None => []
                          end)) None |} [call]
        | Failed message =>
          Responded
            {| headers := corsHeaders; statusCode := 500;
               payload := JsonPayload false None (Some message) |} [call]
        end
    end.

End Handler.

(** Sample numbers, in tenths. *)
Definition sampleNumbers : JsNumbers :=
  {| Num := Z; isZero := Z.eqb 0; num_0_7 := 7 |}.

Definition sampleBody (key temp : option (@Json sampleNumbers))
  : @Body sampleNumbers :=
  {| model := None; prompt := Some (JString (js "analyse 600519"));
     temperature := temp; tools := None; apiKey := key |}.

(** A requested temperature of zero. *)
Definition sampleZero : @Json sampleNumbers := @JNumber sampleNumbers 0.

End Gemini.

(** * Properties *)

(** ** The validator *)

Section ValidatorFacts.

Lemma startsWith_app (s p : jsstring) :
  startsWith s p = true <-> exists r, s = p ++ r.
Proof.
  revert s; induction p as [|a p IH]; intros [|b s]; simpl.
  - split; [intros _; by exists [] | done].
  - split; [intros _; by exists (b :: s) | done].
  - split; [done | intros [r Hr]; discriminate Hr].
  - rewrite andb_true_iff, N.eqb_eq, IH. split.
    + intros [-> [r ->]]. by exists r.
    + intros [r Hr]. injection Hr as -> ->. eauto.
Qed.

Lemma isDigit_IsDigit (c : N) : isDigit c = true <-> IsDigit c.
Proof.
  unfold isDigit, IsDigit.
  rewrite andb_true_iff, !N.leb_le. tauto.
Qed.

Lemma sixDigits_SixDigits (s : jsstring) : sixDigits s = true <-> SixDigits s.
Proof.
  unfold sixDigits, SixDigits.
  rewrite andb_true_iff, Nat.eqb_eq, forallb_forall, Forall_forall.
  split; intros [Hl Hd]; (split; [done|]); intros c Hc.
  - apply isDigit_IsDigit, Hd. by apply list_elem_of_In.
  - apply isDigit_IsDigit, Hd. by apply list_elem_of_In.
Qed.

Lemma allowedFirstDigit_head (code : jsstring) :
  existsb (JS.eqb (charAt code 0)) allowedFirstDigits = true
  <-> exists c, head code = Some c /\ c ∈ allowedLeadingDigits.
Proof.
  unfold charAt. destruct code as [|c r]; simpl.
  - split; [done | intros (c & Hc & _); discriminate Hc].
  - unfold JS.eqb, allowedLeadingDigits.
    rewrite !orb_true_iff, !bool_decide_eq_true. split.
    + intros H. exists c. split; [done|].
      repeat (destruct H as [H|H];
              [injection H as ->; set_solver|]). done.
    + intros (c' & Hc & Hin). injection Hc as <-.
      rewrite !elem_of_cons in Hin.
      repeat (destruct Hin as [->|Hin]; [vm_compute; tauto|]).
      by apply elem_of_nil in Hin.
Qed.

Lemma prefixed_not_digits (code p : jsstring) :
  p ∈ marketPrefixes -> startsWith code p = true -> ~ SixDigits code.
Proof.
  intros Hp [r ->]%startsWith_app [_ Hd].
  assert (exists t, p = 115%N :: t) as [t ->].
  { unfold marketPrefixes in Hp. rewrite !elem_of_cons in Hp.
    destruct Hp as [->|[->|Hp]]; [eexists; reflexivity | eexists; reflexivity |].
    by apply elem_of_nil in Hp. }
  apply Forall_cons in Hd as [[_ Hd] _]. by apply N.leb_le in Hd.
Qed.

Lemma prefix_cases (code : jsstring) :
  startsWith code (js "sh") || startsWith code (js "sz") = true
  <-> exists p, p ∈ marketPrefixes /\ startsWith code p = true.
Proof.
  rewrite orb_true_iff. unfold marketPrefixes. split.
  - intros [H|H]; eexists; (split; [|exact H]); set_solver.
  - intros (p & Hp & H). rewrite !elem_of_cons in Hp.
    destruct Hp as [->|[->|Hp]]; [by left | by right |].
    by apply elem_of_nil in Hp.
Qed.

Lemma prefix_length (p : jsstring) : p ∈ marketPrefixes -> length p = 2%nat.
Proof.
  unfold marketPrefixes. rewrite !elem_of_cons.
  intros [->|[->|Hp]]; [done | done | by apply elem_of_nil in Hp].
Qed.

(** The code's decision on an already normalised text is the grammar. *)
Lemma accepts_grammar (symbol : jsstring) :
  valid (validateStockCode symbol) = true <-> SymbolGrammar (normalise symbol).
Proof.
  unfold validateStockCode, normalise, SymbolGrammar.
  set (code := toLowerCase (trim symbol)).
  destruct (startsWith code (js "sh") || startsWith code (js "sz")) eqn:Hpre.
  - apply prefix_cases in Hpre as (p & Hp & Hs).
    pose proof (prefixed_not_digits _ _ Hp Hs) as Hnd.
    unfold substring.
    destruct (sixDigits (drop 2 code)) eqn:H6; cbn [negb valid].
    + split; [intros _ | done]. left.
      apply startsWith_app in Hs as [r Hr]. exists p, r.
      split; [done|]. split; [done|].
      apply sixDigits_SixDigits. rewrite Hr in H6.
      by rewrite <- (prefix_length p Hp), drop_app_length in H6.
    + split; [done|]. intros [(p' & d & Hp' & Hc & Hd)|[Hd _]]; [|done].
      apply sixDigits_SixDigits in Hd.
      rewrite Hc, <- (prefix_length p' Hp'), drop_app_length in H6.
      congruence.
  - assert (forall p, p ∈ marketPrefixes -> startsWith code p = false) as Hno.
    { intros p Hp. destruct (startsWith code p) eqn:E; [|done].
      assert (startsWith code (js "sh") || startsWith code (js "sz") = true)
        by (apply prefix_cases; eauto).
      congruence. }
    destruct (sixDigits code) eqn:H6; cbn [negb valid].
    + destruct (existsb (JS.eqb (charAt code 0)) allowedFirstDigits) eqn:Hf;
        cbn [negb valid].
      * split; [intros _ | done]. right.
        split; [by apply sixDigits_SixDigits | by apply allowedFirstDigit_head].
      * split; [done|]. intros [(p & d & Hp & Hc & _)|[_ Hh]].
        -- assert (startsWith code p = true) by (apply startsWith_app; eauto).
           rewrite Hno in H; done.
        -- apply allowedFirstDigit_head in Hh. congruence.
    + split; [done|]. intros [(p & d & Hp & Hc & _)|[Hd _]].
      * assert (startsWith code p = true) by (apply startsWith_app; eauto).
        rewrite Hno in H; done.
      * apply sixDigits_SixDigits in Hd. congruence.
Qed.

End ValidatorFacts.

(** Normalising twice is normalising once. *)

Section NormaliseFacts.

Lemma isWhiteSpace_printable (c : N) :
  (33 <= c <= 159)%N -> isWhiteSpace c = false.
Proof.
  intros Hc. unfold isWhiteSpace.
  rewrite !orb_false_iff, !andb_false_iff, !N.eqb_neq, !N.leb_gt. lia.
Qed.

Lemma lowerUnit_cases (c : N) :
  (65 <= c <= 90 /\ lowerUnit c = c + 32)%N
  \/ (~ (65 <= c <= 90)%N /\ lowerUnit c = c).
Proof.
  unfold lowerUnit.
  destruct (N.leb_spec 65 c), (N.leb_spec c 90); simpl; lia.
Qed.

Lemma lowerUnit_idemp (c : N) : lowerUnit (lowerUnit c) = lowerUnit c.
Proof.
  destruct (lowerUnit_cases c) as [[Hc ->]|[Hc ->]].
  - destruct (lowerUnit_cases (c + 32)) as [[Hc' _]|[_ ->]]; [lia | done].
  - destruct (lowerUnit_cases c) as [[Hc' _]|[_ ->]]; [lia | done].
Qed.

Lemma isWhiteSpace_lowerUnit (c : N) :
  isWhiteSpace (lowerUnit c) = isWhiteSpace c.
Proof.
  destruct (lowerUnit_cases c) as [[Hc ->]|[Hc ->]]; [|done].
  rewrite !isWhiteSpace_printable; [done | lia | lia].
Qed.

Lemma toLowerCase_idemp (s : jsstring) :
  toLowerCase (toLowerCase s) = toLowerCase s.
Proof.
  unfold toLowerCase. rewrite map_map. apply map_ext, lowerUnit_idemp.
Qed.

Lemma trimStart_toLowerCase (s : jsstring) :
  trimStart (toLowerCase s) = toLowerCase (trimStart s).
Proof.
  induction s as [|c s IH]; [done|]. simpl.
  rewrite isWhiteSpace_lowerUnit. by destruct (isWhiteSpace c).
Qed.

Lemma trim_toLowerCase (s : jsstring) :
  trim (toLowerCase s) = toLowerCase (trim s).
Proof.
  unfold trim, trimEnd. rewrite trimStart_toLowerCase.
  unfold toLowerCase at 1. rewrite <- map_rev.
  fold (toLowerCase (rev (trimStart s))).
  rewrite trimStart_toLowerCase. unfold toLowerCase. by rewrite map_rev.
Qed.

Lemma trimStart_head (s : jsstring) (c : N) (r : jsstring) :
  trimStart s = c :: r -> isWhiteSpace c = false.
Proof.
  induction s as [|d s IH]; [done|]. simpl.
  destruct (isWhiteSpace d) eqn:Hd; [done|]. by intros [= <- _].
Qed.

Lemma trimStart_clean (c : N) (r : jsstring) :
  isWhiteSpace c = false -> trimStart (c :: r) = c :: r.
Proof. intros H. simpl. by rewrite H. Qed.

Lemma trimStart_idemp (s : jsstring) : trimStart (trimStart s) = trimStart s.
Proof.
  destruct (trimStart s) as [|c r] eqn:E; [done|].
  by apply trimStart_clean, (trimStart_head s c r).
Qed.

Lemma trimStart_snoc (u : jsstring) (c : N) :
  isWhiteSpace c = false -> exists w, trimStart (u ++ [c]) = w ++ [c].
Proof.
  intros Hc. induction u as [|d u [w IH]]; simpl.
  - rewrite Hc. by exists [].
  - destruct (isWhiteSpace d); [by exists w|]. by exists (d :: u).
Qed.

Lemma trimEnd_idemp (s : jsstring) : trimEnd (trimEnd s) = trimEnd s.
Proof. unfold trimEnd. by rewrite rev_involutive, trimStart_idemp. Qed.

Lemma trim_idemp (s : jsstring) : trim (trim s) = trim s.
Proof.
  unfold trim. destruct (trimStart s) as [|c r] eqn:E; [done|].
  pose proof (trimStart_head s c r E) as Hc.
  destruct (trimStart_snoc (rev r) c Hc) as [w Hw].
  assert (trimEnd (c :: r) = c :: rev w) as Ht.
  { unfold trimEnd. simpl. rewrite Hw, rev_app_distr. done. }
  rewrite Ht, (trimStart_clean c (rev w) Hc), <- Ht. apply trimEnd_idemp.
Qed.

Lemma normalise_idemp (s : jsstring) : normalise (normalise s) = normalise s.
Proof.
  unfold normalise.
  by rewrite trim_toLowerCase, toLowerCase_idemp, trim_idemp.
Qed.

End NormaliseFacts.

(** C10.  The validator decides on the trimmed, lower-cased form of its
    input: a symbol is accepted exactly when that form satisfies the
    subject-identifier grammar, and validating the form gives the same
    verdict and message as validating the symbol.  So an upper-case market
    prefix or surrounding white space, which the grammar itself does not
    allow, are accepted. *)
Theorem validateStockCode_normalises (symbol : jsstring) :
  (valid (validateStockCode symbol) = true <-> SymbolGrammar (normalise symbol))
  /\ validateStockCode (normalise symbol) = validateStockCode symbol
  /\ (valid (validateStockCode (js "SH600519")) = true
      /\ ~ SymbolGrammar (js "SH600519"))
  /\ (valid (validateStockCode (js "  sz000001 ")) = true
      /\ ~ SymbolGrammar (js "  sz000001 ")).
Proof.
  split; [apply accepts_grammar|].
  split.
  { unfold validateStockCode. fold (normalise symbol).
    fold (normalise (normalise symbol)). by rewrite normalise_idemp. }
  split; (split; [by vm_compute|]).
  - intros [(p & d & Hp & Hc & _)|[[Hl _] _]]; [|by vm_compute in Hl].
    unfold marketPrefixes in Hp. rewrite !elem_of_cons in Hp.
    destruct Hp as [->|[->|Hp]]; [by vm_compute in Hc..|].
    by apply elem_of_nil in Hp.
  - intros [(p & d & Hp & Hc & _)|[[Hl _] _]]; [|by vm_compute in Hl].
    unfold marketPrefixes in Hp. rewrite !elem_of_cons in Hp.
    destruct Hp as [->|[->|Hp]]; [by vm_compute in Hc..|].
    by apply elem_of_nil in Hp.
Qed.

(** ** The workflow engine *)

Section EngineFacts.
Context `{Svc : Services}.

Lemma rejected_message (symbol : jsstring) :
  valid (validateStockCode symbol) = false ->
  exists msg, message (validateStockCode symbol) = Some msg
    /\ msg ∈ [MSG_BAD_SUFFIX; MSG_BAD_LENGTH; MSG_BAD_LEADING].
Proof.
  unfold validateStockCode.
  repeat match goal with
         | |- context [if ?b then _ else _] => destruct b
         end; cbn [valid message]; intros Hv; try discriminate Hv;
    eexists; (split; [reflexivity|]); set_solver.
Qed.

Lemma messages_nonempty (msg : jsstring) :
  msg ∈ [MSG_BAD_SUFFIX; MSG_BAD_LENGTH; MSG_BAD_LEADING] -> msg ≠ [].
Proof.
  rewrite !elem_of_cons. intros [->|[->|[->|Hin]]]; [done..|].
  by apply elem_of_nil in Hin.
Qed.

(** Expose the fields of the state a handler closes over. *)
Ltac open_state st :=
  destruct st as [? ? ? ? ? ? ? ?];
  cbn [status currentStep stockSymbol stockDataContext outputs agentConfigs
       apiKeys error] in *.

(** Equations and inclusions between key sets of folded outputs. *)
Ltac dom_solver :=
  unfold spread; rewrite ?dom_union_L, ?dom_empty_L;
  first [apply set_eq; intros ?role | intros ?role];
  rewrite ?elem_of_union, ?elem_of_empty; tauto.

(** Unfolding of the monadic plumbing of [handleAnalyze]. *)
Ltac run_engine :=
  cbv [startRun handleAnalyze mbind mret Async_bind Async_ret tryCatch await
       setState snd fst current published calls app
       status currentStep stockSymbol stockDataContext outputs agentConfigs
       apiKeys error].

(** C9.  For every symbol the validator rejects, [startRun] publishes one
    state: its status is [ERROR], it carries one of the validator's three
    non-empty messages, no external call is made, and [outputs] and
    [currentStep] are those of the state before the call. *)
Theorem startRun_rejects_malformed_symbol
    (st : WorkflowState) (symbol : jsstring) (keys : ApiKeys) :
  valid (validateStockCode symbol) = false ->
  let run := startRun st symbol keys in
  status (current run) = ERROR
  /\ (exists msg, error (current run) = Some msg /\ msg ≠ []
        /\ msg ∈ [MSG_BAD_SUFFIX; MSG_BAD_LENGTH; MSG_BAD_LEADING])
  /\ calls run = []
  /\ outputs (current run) = outputs st
  /\ currentStep (current run) = currentStep st
  /\ published run = [current run].
Proof.
  intros Hv run. subst run.
  destruct (rejected_message symbol Hv) as (msg & Hm & Hin).
  open_state st. run_engine. rewrite Hv. cbn. rewrite Hm.
  repeat split. exists msg. eauto using messages_nonempty.
Qed.

(** C1.  A run with a valid symbol, a successful fetch and four stage
    calls that resolve publishes six states whose [currentStep] is
    0, 1, 2, 3, 4, 5 in this order; the last one is the final state, its
    status is [COMPLETED], and its [outputs] is the fold of the four
    results, so it holds every role key any stage returned. *)
Theorem full_pipeline_completes
    (st : WorkflowState) (symbol : jsstring) (keys : ApiKeys)
    (data : StockData) (r1 r2 r3 r4 : Outputs) :
  valid (validateStockCode symbol) = true ->
  fetchStockData symbol (keys !! "juhe") = Resolved (Some data) ->
  runAnalystsStage symbol (agentConfigs st) keys
    (formatStockDataForPrompt data) = Resolved r1 ->
  runManagersStage symbol (spread (outputs st) r1) (agentConfigs st) keys
    (formatStockDataForPrompt data) = Resolved r2 ->
  runRiskStage symbol (spread (spread (outputs st) r1) r2)
    (agentConfigs st) keys (formatStockDataForPrompt data) = Resolved r3 ->
  runGMStage symbol (spread (spread (spread (outputs st) r1) r2) r3)
    (agentConfigs st) keys (formatStockDataForPrompt data) = Resolved r4 ->
  let run := startRun st symbol keys in
  currentStep <$> published run = [0; 1; 2; 3; 4; 5]
  /\ last (published run) = Some (current run)
  /\ status (current run) = COMPLETED
  /\ outputs (current run) = spread (spread (spread (spread ∅ r1) r2) r3) r4
  /\ dom r1 ∪ dom r2 ∪ dom r3 ∪ dom r4 ⊆ dom (outputs (current run)).
Proof.
  intros Hv Hf H1 H2 H3 H4 run. subst run.
  open_state st. run_engine. rewrite Hv. cbn [negb].
  rewrite Hf, H1, H2, H3, H4. cbn.
  repeat split. dom_solver.
Qed.

(** C2, as the code has it.  When a stage call throws after the stages
    before it resolved to [done], the run ends in [ERROR]; [error] is the
    message of the thrown value when that is an [Error] instance, the
    empty message included, and the fallback literal when it is any other
    value; [outputs] is exactly the fold of [done], so its keys are the
    keys of the completed stages; for a throw of the third stage these
    are the roles of stages 1 and 2 only. *)
Theorem stage_failure_contained
    (st : WorkflowState) (symbol : jsstring) (keys : ApiKeys)
    (data : StockData) (done : list Outputs) (e : Thrown) :
  valid (validateStockCode symbol) = true ->
  fetchStockData symbol (keys !! "juhe") = Resolved (Some data) ->
  StageThrows st symbol keys data done e ->
  let run := startRun st symbol keys in
  status (current run) = ERROR
  /\ error (current run) = Some (caughtMessage e)
  /\ (forall msg, e = ErrorObject msg -> error (current run) = Some msg)
  /\ (e = OtherValue -> error (current run) = Some MSG_UNKNOWN)
  /\ outputs (current run) = foldl spread ∅ done
  /\ dom (outputs (current run)) = ⋃ (dom <$> done)
  /\ (forall r1 r2, done = [r1; r2] ->
        dom (outputs (current run)) = dom r1 ∪ dom r2)
  /\ last (published run) = Some (current run).
Proof.
  intros Hv Hf Hthrow run. subst run.
  destruct Hthrow as [e H1|r1 e H1 H2|r1 r2 e H1 H2 H3|r1 r2 r3 e H1 H2 H3 H4];
    open_state st; run_engine; rewrite Hv; cbn [negb];
    rewrite Hf, ?H1, ?H2, ?H3, ?H4; cbn;
    repeat match goal with |- _ /\ _ => split end;
    try reflexivity;
    try (by intros msg ->);
    try (by intros ->);
    try (intros a b Hd; first [discriminate Hd | injection Hd as <- <-]);
    dom_solver.
Qed.

(** What the second stage is called with: the stage-1 results spread over
    the [outputs] of the state the handler closed over. *)
Lemma managers_prior_general
    (st : WorkflowState) (symbol : jsstring) (keys : ApiKeys)
    (data : StockData) (r1 : Outputs) :
  valid (validateStockCode symbol) = true ->
  fetchStockData symbol (keys !! "juhe") = Resolved (Some data) ->
  runAnalystsStage symbol (agentConfigs st) keys
    (formatStockDataForPrompt data) = Resolved r1 ->
  managersPrior (startRun st symbol keys) = Some (spread (outputs st) r1).
Proof.
  intros Hv Hf H1. unfold managersPrior.
  open_state st. run_engine. rewrite Hv. cbn [negb]. rewrite Hf, H1.
  destruct (runManagersStage _ _ _ _ _) as [r2|?]; [|reflexivity].
  destruct (runRiskStage _ _ _ _ _) as [r3|?]; [|reflexivity].
  destruct (runGMStage _ _ _ _ _); reflexivity.
Qed.

(** From a state whose [outputs] are empty (a cold start, or after
    [reset]) the second stage receives exactly the stage-1 results. *)
Lemma managers_prior_fresh
    (st : WorkflowState) (symbol : jsstring) (keys : ApiKeys)
    (data : StockData) (r1 : Outputs) :
  outputs st = ∅ ->
  valid (validateStockCode symbol) = true ->
  fetchStockData symbol (keys !! "juhe") = Resolved (Some data) ->
  runAnalystsStage symbol (agentConfigs st) keys
    (formatStockDataForPrompt data) = Resolved r1 ->
  managersPrior (startRun st symbol keys) = Some r1.
Proof.
  intros Hempty Hv Hf H1.
  rewrite (managers_prior_general st symbol keys data r1 Hv Hf H1), Hempty.
  unfold spread. by rewrite (right_id_L ∅ (∪)).
Qed.

End EngineFacts.

(** Concrete runs on the sample platform. *)

Lemma startRun_rejects_malformed_symbol_witness :
  valid (validateStockCode (js "12345")) = false
  /\ let run := startRun (Svc := sampleServices (Resolved sampleRisk))
                  sampleIdle (js "12345") ∅ in
     status (current run) = ERROR /\ calls run = []
     /\ outputs (current run) = ∅ /\ currentStep (current run) = 0.
Proof.
  split; [reflexivity|].
  pose proof (startRun_rejects_malformed_symbol
                (Svc := sampleServices (Resolved sampleRisk))
                sampleIdle (js "12345") ∅ eq_refl) as Hrun.
  cbv zeta in Hrun. intros run.
  destruct Hrun as (Hs & _ & Hc & Ho & Hn & _). auto.
Defined.

Lemma full_pipeline_completes_witness :
  let run := startRun (Svc := sampleServices (Resolved sampleRisk))
               sampleIdle (js "600519") ∅ in
  currentStep <$> published run = [0; 1; 2; 3; 4; 5]
  /\ status (current run) = COMPLETED
  /\ dom sampleAnalysts ∪ dom sampleManagers ∪ dom sampleRisk ∪ dom sampleGM
       ⊆ dom (outputs (current run)).
Proof.
  pose proof (full_pipeline_completes
                (Svc := sampleServices (Resolved sampleRisk))
                sampleIdle (js "600519") ∅ (js "quote")
                sampleAnalysts sampleManagers sampleRisk sampleGM
                eq_refl eq_refl eq_refl eq_refl eq_refl eq_refl) as Hrun.
  cbv zeta in Hrun. intros run.
  destruct Hrun as (Hsteps & _ & Hs & _ & Hd). auto.
Defined.

Lemma stage_failure_contained_witness :
  let run := startRun
               (Svc := sampleServices (Rejected (ErrorObject (js "quota"))))
               sampleIdle (js "sh600519") ∅ in
  status (current run) = ERROR
  /\ error (current run) = Some (js "quota")
  /\ dom (outputs (current run)) = dom sampleAnalysts ∪ dom sampleManagers.
Proof.
  pose proof (stage_failure_contained
                (Svc := sampleServices (Rejected (ErrorObject (js "quota"))))
                sampleIdle (js "sh600519") ∅ (js "quote")
                [sampleAnalysts; sampleManagers] (ErrorObject (js "quota"))
                eq_refl eq_refl
                (throws_risk
                   (Svc := sampleServices (Rejected (ErrorObject (js "quota"))))
                   sampleIdle (js "sh600519") ∅ (js "quote")
                   sampleAnalysts sampleManagers (ErrorObject (js "quota"))
                   eq_refl eq_refl eq_refl)) as Hrun.
  cbv zeta in Hrun. intros run.
  destruct Hrun as (Hs & He & _ & _ & _ & _ & Hd & _).
  split; [exact Hs|]. split; [exact He|]. by apply Hd.
Defined.

(** C2, as worded: the third stage throws an [Error] that carries no
    message ([new Error()], whose message is the empty string); the claim
    gives the fallback literal, the run keeps the empty message. *)
Lemma stage_failure_empty_message_counterexample :
  let thrown := ErrorObject [] in
  let run := startRun (Svc := sampleServices (Rejected thrown))
               sampleIdle (js "600519") ∅ in
  ~ (error (current run) = Some MSG_UNKNOWN).
Proof.
  intros thrown run Hfallback. vm_compute in Hfallback.
  discriminate Hfallback.
Qed.

(** C3.  A run started from a state restored from the ledger: the engine
    resets its own [outputs], so after stage 1 they are exactly the
    stage-1 results, but the second stage is called with the restored
    record's entries as well. *)
Theorem managers_receive_restored_outputs :
  let st := handleRestoreFromHistory (Plat := samplePlatform) sampleRecord in
  let run := startRun (Svc := sampleServices (Resolved sampleRisk))
               st (js "600519") ∅ in
  status st = IDLE
  /\ status (current run) = COMPLETED
  /\ outputs <$> published run !! 2%nat = Some sampleAnalysts
  /\ sampleAnalysts !! GM = None
  /\ (exists prior, managersPrior run = Some prior
        /\ prior !! GM = Some MARK_BUY /\ prior ≠ sampleAnalysts)
  /\ (exists prior, riskPrior run = Some prior
        /\ prior !! GM = Some MARK_BUY)
  /\ (exists prior, gmPrior run = Some prior
        /\ prior !! GM = Some MARK_BUY).
Proof.
  intros st run.
  split; [reflexivity|]. split; [reflexivity|].
  split; [by vm_compute|]. split; [reflexivity|].
  split; [|split]; eexists; (split; [reflexivity|]).
  - split; [by vm_compute|]. intros Heq.
    assert (Hl : (sampleAnalysts : Outputs) !! GM = Some MARK_BUY)
      by (rewrite <- Heq; by vm_compute).
    by vm_compute in Hl.
  - by vm_compute.
  - by vm_compute.
Qed.

(** ** The durable state store *)

Section StoreFacts.
Context `{Plat : Platform}.

Lemma eqb_true (a b : jsstring) : JS.eqb a b = true <-> a = b.
Proof. unfold JS.eqb. apply bool_decide_eq_true. Qed.

Lemma eqb_false (a b : jsstring) : JS.eqb a b = false <-> a ≠ b.
Proof. unfold JS.eqb. apply bool_decide_eq_false. Qed.

Lemma eqb_refl (a : jsstring) : JS.eqb a a = true.
Proof. by apply eqb_true. Qed.

Lemma loadState_beyond (b : Browser) (now : Z) (persisted : PersistedState) :
  workflow_item (localStorage b) = Some (Document persisted) ->
  version persisted = STORAGE_VERSION ->
  now - timestamp persisted > DATA_EXPIRY_MS ->
  loadState now b = (None, clearState b).
Proof.
  intros Hitem Hver Hage. unfold loadState, clearState.
  rewrite Hitem, Hver, eqb_refl. cbn [negb].
  by rewrite (proj2 (Z.gtb_gt _ _)) by lia.
Qed.

Lemma loadState_within (b : Browser) (now : Z) (persisted : PersistedState) :
  workflow_item (localStorage b) = Some (Document persisted) ->
  version persisted = STORAGE_VERSION ->
  now - timestamp persisted <= DATA_EXPIRY_MS ->
  loadState now b = (Some (state persisted), b).
Proof.
  intros Hitem Hver Hage. unfold loadState.
  rewrite Hitem, Hver, eqb_refl. cbn [negb].
  destruct (Z.gtb_spec (now - timestamp persisted) DATA_EXPIRY_MS);
    [lia | done].
Qed.

(** C6, as the code has it.  For a stored snapshot with the current
    version tag, [loadState] returns nothing and deletes the snapshot when
    [now - timestamp] is strictly beyond the 30 minutes, and returns the
    persisted state, leaving the storage alone, when [now - timestamp] is
    within the 30 minutes, the boundary included. *)
Theorem loadState_expiry (b : Browser) (now : Z) (persisted : PersistedState) :
  workflow_item (localStorage b) = Some (Document persisted) ->
  version persisted = STORAGE_VERSION ->
  (now - timestamp persisted > DATA_EXPIRY_MS ->
     loadState now b = (None, clearState b))
  /\ (now - timestamp persisted <= DATA_EXPIRY_MS ->
     loadState now b = (Some (state persisted), b)).
Proof.
  intros Hitem Hver. split; intros Hage.
  - by apply (loadState_beyond b now persisted).
  - by apply (loadState_within b now persisted).
Qed.

(** C7.  After a successful [saveState], a [loadState] within the expiry
    window returns the six persisted fields of the saved state, and
    [getInitialState] rebuilds the saved state except for [apiKeys]
    (empty) and [error] (absent).  The snapshot holds neither of the two,
    and [getInitialState] gives empty [apiKeys] whatever the storage
    holds. *)
Theorem save_load_roundtrip
    (st : WorkflowState) (b : Browser) (t_save t_load : Z) :
  t_load - t_save <= DATA_EXPIRY_MS ->
  let b1 := saveState true t_save st b in
  (exists snapshot,
      workflow_item (localStorage b1) = Some (Document snapshot)
      /\ p_apiKeys (state snapshot) = None
      /\ p_error (state snapshot) = None
      /\ fst (loadState t_load b1) = Some (state snapshot)
      /\ p_status (state snapshot) = Some (status st)
      /\ p_currentStep (state snapshot) = Some (currentStep st)
      /\ p_stockSymbol (state snapshot) = Some (stockSymbol st)
      /\ p_stockDataContext (state snapshot) = Some (stockDataContext st)
      /\ p_outputs (state snapshot) = Some (outputs st)
      /\ p_agentConfigs (state snapshot) = Some (agentConfigs st))
  /\ fst (getInitialState t_load b1)
     = {| status := status st; currentStep := currentStep st;
          stockSymbol := stockSymbol st;
          stockDataContext := stockDataContext st;
          outputs := outputs st; agentConfigs := agentConfigs st;
          apiKeys := ∅; error := None |}
  /\ (forall now b0, apiKeys (fst (getInitialState now b0)) = ∅).
Proof.
  intros Hage b1.
  assert (forall now b0, apiKeys (fst (getInitialState now b0)) = ∅) as Hkeys.
  { intros now b0. unfold getInitialState. by destruct (loadState now b0). }
  pose proof (loadState_within b1 t_load
                {| version := STORAGE_VERSION; timestamp := t_save;
                   state := {| p_status := Some (status st);
                               p_currentStep := Some (currentStep st);
                               p_stockSymbol := Some (stockSymbol st);
                               p_stockDataContext := Some (stockDataContext st);
                               p_outputs := Some (outputs st);
                               p_agentConfigs := Some (agentConfigs st);
                               p_apiKeys := None; p_error := None |} |}
                eq_refl eq_refl Hage) as Hload.
  split; [|split; [|exact Hkeys]].
  - eexists. split; [reflexivity|]. rewrite Hload. by repeat split.
  - unfold getInitialState. by rewrite Hload.
Qed.

End StoreFacts.

Lemma loadState_expiry_witness :
  let snapshot : @PersistedState samplePlatform :=
    {| version := STORAGE_VERSION; timestamp := 1000;
       state := restoreFromHistory sampleRecord |} in
  let b := {| localStorage := {| workflow_item := Some (Document snapshot);
                                 history_item := None |};
              console := [] |} in
  loadState (1000 + DATA_EXPIRY_MS + 1) b = (None, clearState b)
  /\ loadState (1000 + DATA_EXPIRY_MS) b = (Some (state snapshot), b).
Proof.
  intros snapshot b. split.
  - apply (loadState_expiry b (1000 + DATA_EXPIRY_MS + 1) snapshot
             eq_refl eq_refl). reflexivity.
  - apply (loadState_expiry b (1000 + DATA_EXPIRY_MS) snapshot
             eq_refl eq_refl). discriminate.
Defined.

(** C6, as worded: at exactly 30 minutes the snapshot is still returned. *)
Lemma loadState_at_boundary_counterexample :
  let snapshot : @PersistedState samplePlatform :=
    {| version := STORAGE_VERSION; timestamp := 0;
       state := restoreFromHistory sampleRecord |} in
  let b := {| localStorage := {| workflow_item := Some (Document snapshot);
                                 history_item := None |};
              console := [] |} in
  ~ (1800000 - timestamp snapshot >= DATA_EXPIRY_MS ->
     fst (loadState 1800000 b) = None
     /\ workflow_item (localStorage (snd (loadState 1800000 b))) = None).
Proof.
  intros snapshot b Hclaim.
  assert (1800000 - timestamp snapshot >= DATA_EXPIRY_MS) as Hage
    by (vm_compute; discriminate).
  destruct (Hclaim Hage) as [Hnone _]. vm_compute in Hnone. discriminate Hnone.
Qed.

Lemma save_load_roundtrip_witness :
  let st : @WorkflowState samplePlatform :=
    {| status := RUNNING; currentStep := 2; stockSymbol := js "600519";
       stockDataContext := js "quote"; outputs := sampleAnalysts;
       agentConfigs := DEFAULT_AGENTS;
       apiKeys := {[ "juhe" := js "secret" ]};
       error := Some (js "stale") |} in
  fst (getInitialState 2000 (saveState true 1000 st emptyBrowser))
  = {| status := RUNNING; currentStep := 2; stockSymbol := js "600519";
       stockDataContext := js "quote"; outputs := sampleAnalysts;
       agentConfigs := DEFAULT_AGENTS; apiKeys := ∅; error := None |}.
Proof.
  intros st.
  refine (proj1 (proj2 (save_load_roundtrip st emptyBrowser 1000 2000 _))).
  discriminate.
Defined.

(** ** The history ledger *)

Section LedgerFacts.
Context `{Plat : Platform}.

Lemma insertByTimestamp_perm (x : HistoryItem) (l : list HistoryItem) :
  insertByTimestamp x l ≡ₚ x :: l.
Proof.
  induction l as [|y r IH]; simpl; [done|].
  destruct (h_timestamp y - h_timestamp x <=? 0); [done|].
  rewrite IH. apply Permutation_swap.
Qed.

Lemma sortByTimestampDesc_perm (l : list HistoryItem) :
  sortByTimestampDesc l ≡ₚ l.
Proof.
  induction l as [|x l IH]; simpl; [done|].
  by rewrite insertByTimestamp_perm, IH.
Qed.

Lemma sortByTimestampDesc_length (l : list HistoryItem) :
  length (sortByTimestampDesc l) = length l.
Proof. by rewrite sortByTimestampDesc_perm. Qed.

Lemma insertByTimestamp_sorted (x : HistoryItem) (l : list HistoryItem) :
  Descending l -> Descending (insertByTimestamp x l).
Proof.
  unfold Descending. induction 1 as [|y r Hr IH Hy]; simpl.
  - repeat constructor.
  - destruct (Z.leb_spec (h_timestamp y - h_timestamp x) 0) as [Hle|Hgt].
    + constructor; [by constructor|].
      constructor; [lia|].
      eapply Forall_impl; [exact Hy|]. simpl. intros z Hz. lia.
    + constructor; [exact IH|].
      rewrite insertByTimestamp_perm. constructor; [lia | exact Hy].
Qed.

Lemma sortByTimestampDesc_sorted (l : list HistoryItem) :
  Descending (sortByTimestampDesc l).
Proof.
  induction l as [|x l IH]; simpl; [constructor|].
  by apply insertByTimestamp_sorted.
Qed.

(** The last record of a descending list is an oldest one. *)
Lemma Descending_last_oldest (kept : list HistoryItem) (oldest : HistoryItem) :
  Descending (kept ++ [oldest]) ->
  Forall (fun it => h_timestamp oldest <= h_timestamp it) (kept ++ [oldest]).
Proof.
  unfold Descending. induction kept as [|x kept IH]; simpl; intros Hs.
  - by repeat constructor.
  - apply StronglySorted_inv in Hs as [Hs Hx]. constructor; [|by apply IH].
    rewrite Forall_app, Forall_singleton in Hx. by destruct Hx.
Qed.

Lemma findIndex_range {A : Type} (p : A -> bool) (l : list A) :
  findIndex p l = -1 \/ 0 <= findIndex p l < Z.of_nat (length l).
Proof.
  induction l as [|x r IH]; simpl; [by left|].
  destruct (p x); [right; lia|].
  destruct (Z.ltb_spec (findIndex p r) 0); [by left | right; lia].
Qed.

Lemma findIndex_none {A : Type} (p : A -> bool) (l : list A) :
  findIndex p l = -1 <-> Forall (fun x => p x = false) l.
Proof.
  induction l as [|x r IH]; simpl; [by split; [constructor|]|].
  pose proof (findIndex_range p r) as Hr.
  destruct (p x) eqn:Hx.
  - split; [done|]. intros [Hx' _]%Forall_cons. congruence.
  - destruct (Z.ltb_spec (findIndex p r) 0).
    + split; [|done]. intros _. constructor; [done|]. apply IH. lia.
    + split; [lia|]. intros [_ Hr']%Forall_cons. apply IH in Hr'. lia.
Qed.

Lemma findIndex_found {A : Type} (p : A -> bool) (l : list A) :
  0 <= findIndex p l ->
  exists x, l !! Z.to_nat (findIndex p l) = Some x /\ p x = true.
Proof.
  induction l as [|x r IH]; simpl; [lia|].
  destruct (p x) eqn:Hx; [intros _; by exists x|].
  destruct (Z.ltb_spec (findIndex p r) 0); [lia|]. intros _.
  destruct IH as (y & Hy & Hp); [lia|]. exists y. split; [|done].
  replace (Z.to_nat (findIndex p r + 1)) with (S (Z.to_nat (findIndex p r)))
    by lia.
  done.
Qed.

Lemma getHistory_readable (b : Browser) (data : HistoryStorage) :
  history_item (localStorage b) = Some (Document data) ->
  hs_version data = STORAGE_VERSION ->
  getHistory b = (sortByTimestampDesc (items data), b).
Proof.
  intros Hitem Hver. unfold getHistory. by rewrite Hitem, Hver, eqb_refl.
Qed.

(** Whatever the storage holds, the list [getHistory] returns is a stored
    list in descending order, and has no more records than are stored. *)
Lemma getHistory_fst (b : Browser) :
  fst (getHistory b) = []
  \/ exists data, history_item (localStorage b) = Some (Document data)
       /\ hs_version data = STORAGE_VERSION
       /\ getHistory b = (sortByTimestampDesc (items data), b).
Proof.
  unfold getHistory.
  destruct (history_item (localStorage b)) as [[| |data]|] eqn:Hitem;
    try by left.
  destruct (JS.eqb (hs_version data) STORAGE_VERSION) eqn:Hver; [|by left].
  right. exists data. by apply eqb_true in Hver.
Qed.

(** C8, as the code has it.  [getHistory] returns the empty list and
    deletes the stored ledger on a version mismatch; on content that does
    not parse it returns the empty list and leaves the storage as it is;
    on a ledger of the current version it returns all stored records in
    descending order of [timestamp], and leaves the storage as it is. *)
Theorem getHistory_cases (b : Browser) :
  (forall data,
      history_item (localStorage b) = Some (Document data) ->
      hs_version data ≠ STORAGE_VERSION ->
      getHistory b = ([], clearHistory b))
  /\ (history_item (localStorage b) = Some Unparseable ->
      getHistory b = ([], b))
  /\ (forall data,
      history_item (localStorage b) = Some (Document data) ->
      hs_version data = STORAGE_VERSION ->
      snd (getHistory b) = b
      /\ fst (getHistory b) ≡ₚ items data
      /\ Descending (fst (getHistory b))).
Proof.
  split; [|split].
  - intros data Hitem Hver. unfold getHistory, clearHistory.
    rewrite Hitem. by rewrite (proj2 (eqb_false _ _) Hver).
  - intros Hitem. unfold getHistory. by rewrite Hitem.
  - intros data Hitem Hver. rewrite (getHistory_readable b data Hitem Hver).
    split; [done|]. split.
    + apply sortByTimestampDesc_perm.
    + apply sortByTimestampDesc_sorted.
Qed.

End LedgerFacts.

Lemma getHistory_cases_witness :
  let older : HistoryItem :=
    {| h_id := js "000001-500"; h_stockSymbol := js "000001";
       h_status := ERROR; h_currentStep := 3; h_timestamp := 500;
       h_completedAt := None; h_gmDecision := Some LABEL_ANALYZING;
       h_outputs := ∅ |} in
  let stale : @Browser samplePlatform :=
    setHistory (Some (Document {| hs_version := js "v0";
                                  items := [sampleRecord] |})) emptyBrowser in
  let garbled : @Browser samplePlatform :=
    setHistory (Some Unparseable) emptyBrowser in
  let good : @Browser samplePlatform :=
    setHistory (Some (Document {| hs_version := STORAGE_VERSION;
                                  items := [older; sampleRecord] |}))
      emptyBrowser in
  getHistory stale = ([], clearHistory stale)
  /\ getHistory garbled = ([], garbled)
  /\ fst (getHistory good) ≡ₚ [older; sampleRecord]
  /\ Descending (fst (getHistory good)).
Proof.
  intros older stale garbled good.
  split; [|split].
  - apply (proj1 (getHistory_cases stale) _ eq_refl). discriminate.
  - apply (proj1 (proj2 (getHistory_cases garbled)) eq_refl).
  - apply (proj2 (proj2 (getHistory_cases good)) _ eq_refl eq_refl).
Defined.

(** C8, as worded: a ledger whose content does not parse is not deleted. *)
Lemma getHistory_keeps_unparseable_counterexample :
  let garbled : @Browser samplePlatform :=
    setHistory (Some Unparseable) emptyBrowser in
  ~ (fst (getHistory garbled) = []
     /\ history_item (localStorage (snd (getHistory garbled))) = None).
Proof.
  intros garbled [_ Hdeleted]. vm_compute in Hdeleted. discriminate Hdeleted.
Qed.

(** ** Recording a run in the ledger *)

Section RecordFacts.
Context `{Plat : Platform}.

Lemma getHistory_console (b : Browser) :
  console (snd (getHistory b)) = console b.
Proof.
  unfold getHistory.
  destruct (history_item (localStorage b)) as [[| |data]|]; try done.
  by destruct (negb _).
Qed.

Lemma getHistory_length (b : Browser) :
  (length (fst (getHistory b)) <= length (storedItems b))%nat.
Proof.
  destruct (getHistory_fst b) as [->|(data & Hitem & _ & ->)]; simpl; [lia|].
  unfold storedItems. by rewrite Hitem, sortByTimestampDesc_length.
Qed.

(** The ledger a successful [saveToHistory] leaves. *)
Lemma saveToHistory_stored (clk : Clock) (st : WorkflowState) (b : Browser) :
  let history := fst (getHistory b) in
  let i := findIndex (sameOpenRun st) history in
  history_item (localStorage (saveToHistory true clk st b))
  = Some (Document
      {| hs_version := STORAGE_VERSION;
         items := slice0 50
           (if 0 <=? i then <[Z.to_nat i := newItemOf clk st]> history
            else newItemOf clk st :: history) |}).
Proof. unfold saveToHistory. by destruct (getHistory b). Qed.

Lemma saveToHistory_storedItems (clk : Clock) (st : WorkflowState) (b : Browser) :
  let history := fst (getHistory b) in
  let i := findIndex (sameOpenRun st) history in
  storedItems (saveToHistory true clk st b)
  = take 50 (if 0 <=? i then <[Z.to_nat i := newItemOf clk st]> history
             else newItemOf clk st :: history).
Proof.
  intros history i. unfold storedItems.
  by rewrite saveToHistory_stored.
Qed.

Lemma getHistory_after_save (clk : Clock) (st : WorkflowState) (b : Browser) :
  fst (getHistory (saveToHistory true clk st b))
  = sortByTimestampDesc (storedItems (saveToHistory true clk st b)).
Proof.
  unfold storedItems, getHistory. rewrite saveToHistory_stored.
  cbn [hs_version]. by rewrite eqb_refl.
Qed.

Lemma sameOpenRun_true (st : WorkflowState) (it : HistoryItem) :
  sameOpenRun st it = true
  <-> h_stockSymbol it = stockSymbol st /\ h_status it ≠ COMPLETED.
Proof.
  unfold sameOpenRun.
  by rewrite andb_true_iff, eqb_true, negb_true_iff, bool_decide_eq_false.
Qed.

Lemma sameOpenRun_false (st : WorkflowState) (it : HistoryItem) :
  sameOpenRun st it = false
  <-> (h_stockSymbol it = stockSymbol st -> h_status it = COMPLETED).
Proof.
  rewrite <- not_true_iff_false, sameOpenRun_true. split.
  - intros Hn Hs. destruct (decide (h_status it = COMPLETED)); [done|].
    by destruct Hn.
  - intros Hc [Hs Hn]. by apply Hn, Hc.
Qed.

Lemma entriesFor_replace (symbol : jsstring) (l : list HistoryItem)
    (i : nat) (old only new : HistoryItem) :
  l !! i = Some old ->
  h_stockSymbol old = symbol -> h_stockSymbol new = symbol ->
  entriesFor symbol l = [only] ->
  entriesFor symbol (<[i:=new]> l) = [new].
Proof.
  unfold entriesFor. revert i.
  induction l as [|x l IH]; intros [|i]; simpl; try done.
  - intros [= ->] Ho Hn. rewrite !filter_cons.
    destruct (decide _); [|done]. destruct (decide _); [|done].
    by intros [= _ ->].
  - intros Hl Ho Hn. rewrite !filter_cons.
    destruct (decide _) as [Hx|Hx].
    + intros [= _ Hnil].
      assert (old ∈ filter (fun it => h_stockSymbol it = symbol) l) as Hin.
      { apply list_elem_of_filter. split; [done|].
        by apply list_elem_of_lookup_2 with i. }
      rewrite Hnil in Hin. by apply elem_of_nil in Hin.
    + intros Hf. by apply (IH i).
Qed.

Lemma entriesFor_take_none (symbol : jsstring) (n : nat)
    (l : list HistoryItem) :
  entriesFor symbol l = [] -> entriesFor symbol (take n l) = [].
Proof.
  unfold entriesFor. intros Hnil.
  destruct (filter _ (take n l)) as [|x r] eqn:E; [done|].
  assert (x ∈ filter (fun it => h_stockSymbol it = symbol) l) as Hin.
  { assert (x ∈ filter (fun it => h_stockSymbol it = symbol) (take n l)) as Hx
      by (rewrite E; left).
    apply list_elem_of_filter in Hx as [Hp Hx].
    apply list_elem_of_filter. split; [done|]. by apply (subseteq_take n). }
  rewrite Hnil in Hin. by apply elem_of_nil in Hin.
Qed.

Lemma no_entries_no_open_run (st : WorkflowState) (l : list HistoryItem) :
  entriesFor (stockSymbol st) l = [] -> findIndex (sameOpenRun st) l = -1.
Proof.
  intros Hnil. apply findIndex_none, Forall_forall. intros it Hin.
  apply sameOpenRun_false. intros Hs.
  assert (it ∈ entriesFor (stockSymbol st) l) as Hit
    by (by apply list_elem_of_filter).
  rewrite Hnil in Hit. by apply elem_of_nil in Hit.
Qed.

(** The module never writes a ledger of more than 50 records when it
    found at most 50. *)
Lemma ledger_cap_invariant (b : Browser) :
  (length (storedItems b) <= 50)%nat ->
  (forall clk st,
      (length (storedItems (saveToHistory true clk st b)) <= 50)%nat)
  /\ (forall id,
      (length (storedItems (deleteFromHistory true id b)) <= 50)%nat).
Proof.
  intros Hcap. split.
  - intros clk st. rewrite saveToHistory_storedItems, length_take. lia.
  - intros id. pose proof (getHistory_length b) as Hlen.
    unfold deleteFromHistory. destruct (getHistory b) as [h b0].
    unfold storedItems. cbn [setHistory localStorage history_item items].
    pose proof (length_filter (fun item => h_id item ≠ id) h) as Hf.
    cbn [fst] in Hlen. lia.
Qed.

(** C5.  A successful [saveToHistory] leaves a ledger of the current
    version with at most 50 records and writes no warning.  When the
    stored ledger holds 50 records and none of them is an unfinished
    record of the same symbol, the new record goes to the front, the last
    record in descending order of [timestamp] (an oldest one) is dropped,
    and the ledger still holds 50 records. *)
Theorem saveToHistory_bounded (clk : Clock) (st : WorkflowState) (b : Browser) :
  let b' := saveToHistory true clk st b in
  (exists data,
      history_item (localStorage b') = Some (Document data)
      /\ hs_version data = STORAGE_VERSION
      /\ (length (items data) <= 50)%nat)
  /\ console b' = console b
  /\ (forall data,
        history_item (localStorage b) = Some (Document data) ->
        hs_version data = STORAGE_VERSION ->
        length (items data) = 50%nat ->
        Forall (fun it => sameOpenRun st it = false) (items data) ->
        exists kept oldest,
          sortByTimestampDesc (items data) = kept ++ [oldest]
          /\ storedItems b' = newItemOf clk st :: kept
          /\ length (storedItems b') = 50%nat
          /\ oldest ∈ items data
          /\ Forall (fun it => h_timestamp oldest <= h_timestamp it)
               (items data)).
Proof.
  intros b'. split; [|split].
  - eexists. split; [apply saveToHistory_stored|]. split; [done|].
    cbn [items]. unfold slice0. rewrite length_take. lia.
  - subst b'. unfold saveToHistory.
    pose proof (getHistory_console b) as Hc.
    destruct (getHistory b) as [h b0]. by simpl in *.
  - intros data Hitem Hver Hlen Hnone. subst b'.
    rewrite saveToHistory_storedItems.
    rewrite (getHistory_readable b data Hitem Hver). cbn [fst].
    set (h := sortByTimestampDesc (items data)).
    assert (h ≡ₚ items data) as Hperm by apply sortByTimestampDesc_perm.
    assert (findIndex (sameOpenRun st) h = -1) as ->.
    { apply findIndex_none. by rewrite Hperm. }
    change (0 <=? -1) with false. cbn iota.
    assert (length h = 50%nat) as Hlenh by (by rewrite Hperm).
    destruct (exists_last (l := h)) as (kept & oldest & Hsplit).
    { intros Hnil. by rewrite Hnil in Hlenh. }
    assert (length kept = 49%nat) as Hk.
    { rewrite Hsplit, length_app in Hlenh. simpl in Hlenh. lia. }
    exists kept, oldest. split; [done|].
    assert (take 50 (newItemOf clk st :: h) = newItemOf clk st :: kept) as ->.
    { change (take 50 (newItemOf clk st :: h))
        with (newItemOf clk st :: take 49 h).
      by rewrite Hsplit, take_app_length'. }
    split; [done|]. split; [simpl; lia|].
    pose proof (sortByTimestampDesc_sorted (items data)) as Hs.
    fold h in Hs. rewrite Hsplit in Hs.
    apply Descending_last_oldest in Hs. rewrite <- Hsplit in Hs.
    split.
    + rewrite <- Hperm, Hsplit. apply elem_of_app. right. left.
    + by rewrite <- Hperm.
Qed.

(** C4.  Positions are those of the list [getHistory] returns (most
    recent first), which is the list [saveToHistory] updates.  When the
    stored ledger holds an unfinished record of the state's symbol, the
    new record takes the place of the first such record and the ledger
    gains no entry: with at most 50 records stored, every other position
    and the length are unchanged.  Two successive calls for a symbol the
    ledger did not hold, the first with a status other than [COMPLETED],
    leave exactly one entry for the symbol, the second record.  When
    every record of the symbol is [COMPLETED], the new record is put in
    front instead. *)
Theorem saveToHistory_dedup (clk : Clock) (st : WorkflowState) (b : Browser) :
  let b' := saveToHistory true clk st b in
  (forall data,
      history_item (localStorage b) = Some (Document data) ->
      hs_version data = STORAGE_VERSION ->
      Exists (fun it => h_stockSymbol it = stockSymbol st
                        /\ h_status it ≠ COMPLETED) (items data) ->
      exists i old,
        sortByTimestampDesc (items data) !! i = Some old
        /\ h_stockSymbol old = stockSymbol st /\ h_status old ≠ COMPLETED
        /\ storedItems b'
           = take 50 (<[i := newItemOf clk st]>
                        (sortByTimestampDesc (items data)))
        /\ (length (storedItems b') <= length (items data))%nat
        /\ ((length (items data) <= 50)%nat ->
            storedItems b'
            = <[i := newItemOf clk st]> (sortByTimestampDesc (items data))
            /\ storedItems b' !! i = Some (newItemOf clk st)
            /\ length (storedItems b') = length (items data)))
  /\ (forall clk2 st2,
        stockSymbol st2 = stockSymbol st ->
        status st ≠ COMPLETED ->
        entriesFor (stockSymbol st) (fst (getHistory b)) = [] ->
        entriesFor (stockSymbol st)
          (storedItems (saveToHistory true clk2 st2 b'))
        = [newItemOf clk2 st2])
  /\ (Forall (fun it => h_stockSymbol it = stockSymbol st ->
                        h_status it = COMPLETED) (fst (getHistory b)) ->
      storedItems b' = newItemOf clk st :: take 49 (fst (getHistory b))).
Proof.
  intros b'. subst b'. split; [|split].
  - intros data Hitem Hver Hopen.
    rewrite saveToHistory_storedItems.
    rewrite (getHistory_readable b data Hitem Hver). cbn [fst].
    set (h := sortByTimestampDesc (items data)).
    assert (h ≡ₚ items data) as Hperm by apply sortByTimestampDesc_perm.
    assert (length h = length (items data)) as Hlen by (by rewrite Hperm).
    pose proof (findIndex_range (sameOpenRun st) h) as [Hnone|Hrange].
    { apply findIndex_none in Hnone. rewrite Hperm in Hnone.
      apply Exists_exists in Hopen as (it & Hin & Hit).
      rewrite Forall_forall in Hnone. specialize (Hnone it Hin).
      apply sameOpenRun_true in Hit. congruence. }
    destruct (findIndex_found (sameOpenRun st) h) as (old & Hold & Hp);
      [lia|].
    apply sameOpenRun_true in Hp as [Hsym Hst].
    rewrite (proj2 (Z.leb_le _ _)) by lia.
    exists (Z.to_nat (findIndex (sameOpenRun st) h)), old.
    split; [done|]. split; [done|]. split; [done|]. split; [done|].
    split; [rewrite length_take, length_insert; lia|].
    intros Hcap. rewrite take_ge by (rewrite length_insert; lia).
    split; [done|]. split; [|by rewrite length_insert].
    apply list_lookup_insert_eq. lia.
  - intros clk2 st2 Hsym Hst Hfresh.
    set (b1 := saveToHistory true clk st b).
    assert (storedItems b1
            = newItemOf clk st :: take 49 (fst (getHistory b))) as Hb1.
    { unfold b1. rewrite saveToHistory_storedItems.
      by rewrite (no_entries_no_open_run st _ Hfresh). }
    assert (length (storedItems b1) <= 50)%nat as Hcap.
    { rewrite Hb1. simpl. rewrite length_take. lia. }
    assert (entriesFor (stockSymbol st) (storedItems b1) = [newItemOf clk st])
      as Hone.
    { rewrite Hb1. unfold entriesFor. rewrite filter_cons.
      destruct (decide _) as [_|Hne]; [|by destruct Hne].
      f_equal. by apply entriesFor_take_none. }
    assert (fst (getHistory b1) = sortByTimestampDesc (storedItems b1))
      as Hread by apply getHistory_after_save.
    rewrite saveToHistory_storedItems, Hread.
    set (h1 := sortByTimestampDesc (storedItems b1)).
    assert (h1 ≡ₚ storedItems b1) as Hperm by apply sortByTimestampDesc_perm.
    assert (entriesFor (stockSymbol st) h1 = [newItemOf clk st]) as Hone1.
    { apply Permutation_singleton_r. rewrite <- Hone.
      unfold entriesFor. by rewrite Hperm. }
    pose proof (findIndex_range (sameOpenRun st2) h1) as [Hnone|Hrange].
    { apply findIndex_none in Hnone. rewrite Forall_forall in Hnone.
      assert (newItemOf clk st ∈ h1) as Hin.
      { rewrite Hperm, Hb1. left. }
      specialize (Hnone _ Hin).
      assert (sameOpenRun st2 (newItemOf clk st) = true) as Htrue
        by (apply sameOpenRun_true; by rewrite Hsym).
      congruence. }
    destruct (findIndex_found (sameOpenRun st2) h1) as (old & Hold & Hp);
      [lia|].
    apply sameOpenRun_true in Hp as [Hosym _]. rewrite Hsym in Hosym.
    rewrite (proj2 (Z.leb_le _ _)) by lia.
    rewrite take_ge by (rewrite length_insert; unfold h1;
                        rewrite sortByTimestampDesc_length; lia).
    by apply (entriesFor_replace _ _ _ old (newItemOf clk st)).
  - intros Hdone. rewrite saveToHistory_storedItems.
    assert (findIndex (sameOpenRun st) (fst (getHistory b)) = -1) as ->.
    { apply findIndex_none. eapply Forall_impl; [exact Hdone|].
      intros it Hit. by apply sameOpenRun_false. }
    done.
Qed.

End RecordFacts.

Lemma saveToHistory_bounded_witness :
  let b' := saveToHistory true (sampleClock 9000) sampleCompleted
              (browserWith (sampleLedger 50)) in
  length (storedItems b') = 50%nat
  /\ head (storedItems b') = Some (newItemOf (sampleClock 9000) sampleCompleted)
  /\ sampleItemAt 1 ∉ storedItems b'.
Proof.
  cbv zeta.
  destruct (proj2 (proj2 (saveToHistory_bounded (sampleClock 9000)
                            sampleCompleted (browserWith (sampleLedger 50))))
              {| hs_version := STORAGE_VERSION; items := sampleLedger 50 |}
              eq_refl eq_refl eq_refl)
    as (kept & oldest & Hsorted & Hstored & Hlen & _).
  { repeat constructor. }
  split; [exact Hlen|]. split; [by rewrite Hstored|].
  vm_compute. intros Hin.
  repeat (apply elem_of_cons in Hin as [Hin|Hin]; [discriminate Hin|]).
  by apply elem_of_nil in Hin.
Defined.

Lemma saveToHistory_dedup_witness :
  (let b := browserWith [sampleRecord; sampleOpenRecord] in
   let b' := saveToHistory true (sampleClock 3000) sampleCompleted b in
   exists i, storedItems b' !! i
             = Some (newItemOf (sampleClock 3000) sampleCompleted)
     /\ length (storedItems b') = 2%nat)
  /\ (let b1 := saveToHistory true (sampleClock 3000) sampleFailed emptyBrowser in
      entriesFor (js "600519")
        (storedItems (saveToHistory true (sampleClock 4000) sampleCompleted b1))
      = [newItemOf (sampleClock 4000) sampleCompleted])
  /\ (let b := browserWith [sampleRecord] in
      storedItems (saveToHistory true (sampleClock 3000) sampleCompleted b)
      = [newItemOf (sampleClock 3000) sampleCompleted; sampleRecord]).
Proof.
  split; [|split].
  - intros b b'.
    destruct (proj1 (saveToHistory_dedup (sampleClock 3000) sampleCompleted b)
                {| hs_version := STORAGE_VERSION;
                   items := [sampleRecord; sampleOpenRecord] |}
                eq_refl eq_refl)
      as (i & old & _ & _ & _ & _ & _ & Hcap).
    { apply Exists_cons_tl, Exists_cons_hd. split; [reflexivity|discriminate]. }
    destruct Hcap as (_ & Hat & Hlen); [simpl; lia|].
    exists i. split; [exact Hat | exact Hlen].
  - intros b1.
    apply (proj1 (proj2 (saveToHistory_dedup (sampleClock 3000) sampleFailed
                           emptyBrowser))
             (sampleClock 4000) sampleCompleted eq_refl).
    + discriminate.
    + reflexivity.
  - intros b.
    apply (proj2 (proj2 (saveToHistory_dedup (sampleClock 3000) sampleCompleted
                           b))).
    repeat constructor.
Defined.

(** * Further properties of the code *)

(** ** Runs of the engine, whatever the services do *)

Section RunFacts.
Context `{Svc : Services}.

Ltac open_record x :=
  destruct x as [? ? ? ? ? ? ? ?];
  cbn [status currentStep stockSymbol stockDataContext outputs agentConfigs
       apiKeys error] in *.

Ltac unfold_run :=
  cbv [startRun handleAnalyze mbind mret Async_bind Async_ret tryCatch await
       setState snd fst current published calls app
       status currentStep stockSymbol stockDataContext outputs agentConfigs
       apiKeys error].

(** One case per way the five external calls can settle. *)
Ltac settle_calls :=
  destruct (fetchStockData _ _) as [[?data|]|?e];
  [ destruct (runAnalystsStage _ _ _ _) as [?r1|?e];
    [ destruct (runManagersStage _ _ _ _ _) as [?r2|?e];
      [ destruct (runRiskStage _ _ _ _ _) as [?r3|?e];
        [ destruct (runGMStage _ _ _ _ _) as [?r4|?e] | ] | ] | ] | | ].

Ltac tidy := cbn -[MSG_NO_DATA].

Ltac keys_subset :=
  unfold spread; rewrite ?dom_union_L, ?dom_empty_L;
  intros ?role; rewrite ?elem_of_union, ?elem_of_empty; tauto.

Lemma MSG_NO_DATA_nonempty (symbol : jsstring) : MSG_NO_DATA symbol ≠ [].
Proof. unfold MSG_NO_DATA. by vm_compute. Qed.

(** X1.  With a valid symbol and a fetch that resolves to nothing, the run
    makes the fetch call and no stage call; it publishes [FETCHING_DATA]
    then [ERROR], with the diagnostic message built from the upper-cased
    symbol, empty [outputs] and [currentStep] 0. *)
Theorem fetch_nothing_stops_run
    (st : WorkflowState) (symbol : jsstring) (keys : ApiKeys) :
  valid (validateStockCode symbol) = true ->
  fetchStockData symbol (keys !! "juhe") = Resolved None ->
  let run := startRun st symbol keys in
  calls run = [CallFetch symbol (keys !! "juhe")]
  /\ status <$> published run = [FETCHING_DATA; ERROR]
  /\ last (published run) = Some (current run)
  /\ error (current run) = Some (MSG_NO_DATA symbol)
  /\ MSG_NO_DATA symbol ≠ []
  /\ outputs (current run) = ∅
  /\ currentStep (current run) = 0
  /\ stockDataContext (current run) = stockDataContext st.
Proof.
  intros Hv Hf run. subst run. open_record st.
  unfold_run. rewrite Hv. cbn [negb]. rewrite Hf. tidy.
  repeat split. apply MSG_NO_DATA_nonempty.
Qed.

(** X2.  With a valid symbol and a fetch that throws, the run makes the
    fetch call and no stage call and ends in [ERROR] with the message of
    the thrown [Error] (the fallback literal for another thrown value);
    [outputs] is empty and [currentStep] is 0. *)
Theorem fetch_throw_stops_run
    (st : WorkflowState) (symbol : jsstring) (keys : ApiKeys) (e : Thrown) :
  valid (validateStockCode symbol) = true ->
  fetchStockData symbol (keys !! "juhe") = Rejected e ->
  let run := startRun st symbol keys in
  calls run = [CallFetch symbol (keys !! "juhe")]
  /\ status <$> published run = [FETCHING_DATA; ERROR]
  /\ last (published run) = Some (current run)
  /\ error (current run) = Some (caughtMessage e)
  /\ outputs (current run) = ∅
  /\ currentStep (current run) = 0.
Proof.
  intros Hv Hf run. subst run. open_record st.
  unfold_run. rewrite Hv. cbn [negb]. rewrite Hf. tidy.
  by repeat split.
Qed.

(** One case per way the five external calls can settle, each outcome
    kept as an equation. *)
Ltac settle_calls_eq :=
  destruct (fetchStockData _ _) as [[?data|]|?e] eqn:?Hfetch;
  [ destruct (runAnalystsStage _ _ _ _) as [?r1|?e] eqn:?Hanalysts;
    [ destruct (runManagersStage _ _ _ _ _) as [?r2|?e] eqn:?Hmanagers;
      [ destruct (runRiskStage _ _ _ _ _) as [?r3|?e] eqn:?Hrisk;
        [ destruct (runGMStage _ _ _ _ _) as [?r4|?e] eqn:?Hgm | ] | ] | ] | | ].

(** Decide [callSucceeded] on the calls of the case at hand. *)
Ltac outcome :=
  cbn [callSucceeded];
  repeat match goal with
         | E : _ = Resolved _ |- _ => rewrite E
         | E : _ = Rejected _ |- _ => rewrite E
         end.

Ltac outcome_in H :=
  cbn [callSucceeded] in H;
  repeat match goal with
         | E : _ = Resolved _ |- _ => rewrite E in H
         | E : _ = Rejected _ |- _ => rewrite E in H
         end.

(** X3.  Whatever the symbol and however the external calls settle, a run
    makes its calls in the fixed order fetch, analysts, managers, risk,
    general manager, each at most once and none after a failure: every
    call but the last one made has succeeded.  It ends in [COMPLETED] or
    [ERROR]: in [COMPLETED] exactly when all five calls were made and
    succeeded, in [ERROR] exactly when the symbol was rejected before any
    call or the last call made has failed. *)
Theorem run_call_order
    (st : WorkflowState) (symbol : jsstring) (keys : ApiKeys) :
  let run := startRun st symbol keys in
  callKind <$> calls run `prefix_of` stageOrder
  /\ Forall (fun c => callSucceeded c = true) (removelast (calls run))
  /\ (status (current run) = COMPLETED \/ status (current run) = ERROR)
  /\ (status (current run) = COMPLETED
      <-> callKind <$> calls run = stageOrder
          /\ Forall (fun c => callSucceeded c = true) (calls run))
  /\ (status (current run) = ERROR
      <-> (calls run = [] /\ valid (validateStockCode symbol) = false)
          \/ exists c, last (calls run) = Some c /\ callSucceeded c = false)
  /\ last (published run) = Some (current run).
Proof.
  intros run. subst run. open_record st. unfold_run.
  destruct (valid (validateStockCode symbol)) eqn:Hv; cbn [negb].
  - settle_calls_eq; cbn -[MSG_NO_DATA callSucceeded]; unfold stageOrder;
      (split; [eexists; reflexivity|]);
      (split; [repeat constructor; outcome; reflexivity|]);
      (split; [first [by left | by right]|]);
      (split; [|split; [|done]]).
    all: split.
    all: try (intros Heq; discriminate Heq).
    all: try (intros [Hk _]; discriminate Hk).
    all: try (intros _; right; eexists; split; [reflexivity|];
              outcome; reflexivity).
    all: try (intros _; split; [reflexivity|];
              repeat constructor; outcome; reflexivity).
    all: try (intros _; reflexivity).
    + intros [[Hc _]|(c & Hl & Hf)]; [discriminate Hc|].
      injection Hl as <-. outcome_in Hf. discriminate Hf.
    + intros [_ Hall]. exfalso.
      do 4 (apply Forall_cons in Hall as [_ Hall]).
      apply Forall_cons in Hall as [Hlast _].
      outcome_in Hlast. discriminate Hlast.
  - cbn. split; [eexists; reflexivity|]. split; [constructor|].
    split; [by right|]. split; [|split; [|done]].
    + split; [intros Heq; discriminate Heq | intros [Hk _]; discriminate Hk].
    + split; [intros _; by left | done].
Qed.

(** X4.  In the states a run publishes, [currentStep] never decreases,
    the key set of [outputs] never shrinks, and [error] is present
    exactly in the states whose status is [ERROR]; this for any earlier
    state, any symbol and any settling of the calls. *)
Theorem run_published_invariants
    (st : WorkflowState) (symbol : jsstring) (keys : ApiKeys) :
  let run := startRun st symbol keys in
  StronglySorted Z.le (currentStep <$> published run)
  /\ StronglySorted (fun a b : Outputs => dom a ⊆ dom b)
       (outputs <$> published run)
  /\ Forall (fun s => is_Some (error s) <-> status s = ERROR) (published run).
Proof.
  intros run. subst run. open_record st. unfold_run.
  destruct (valid (validateStockCode symbol)) eqn:Hv; cbn [negb].
  - settle_calls; tidy;
      (split; [repeat constructor; lia|]);
      (split; [repeat constructor; keys_subset|]);
      repeat constructor;
      try (intros [? ?]; discriminate); try discriminate; by eauto.
  - destruct (rejected_message symbol Hv) as (msg & Hm & _). rewrite Hm.
    cbn. split; [repeat constructor|]. split; [repeat constructor|].
    by repeat constructor.
Qed.

(** X5.  A run reads the handler's closure and writes the state cell: its
    calls are those of [startRun] on the closed-over state whatever the
    cell holds, it keeps what was published and called before, it never
    changes the cell's [agentConfigs], and with a valid symbol every
    state it publishes holds the symbol exactly as given and the given
    credentials. *)
Theorem run_reads_closure_writes_cell
    (st : WorkflowState) (symbol : jsstring) (keys : ApiKeys) (r : Run) :
  let r' := snd (handleAnalyze st symbol keys r) in
  calls r' = calls r ++ calls (startRun st symbol keys)
  /\ published r `prefix_of` published r'
  /\ agentConfigs (current r') = agentConfigs (current r)
  /\ (valid (validateStockCode symbol) = true ->
      exists new, published r' = published r ++ new
        /\ Forall (fun s => stockSymbol s = symbol /\ apiKeys s = keys
                            /\ agentConfigs s = agentConfigs (current r)) new).
Proof.
  intros r'. subst r'. destruct r as [cur pub cls].
  open_record cur. open_record st.
  cbv [startRun handleAnalyze mbind mret Async_bind Async_ret tryCatch await
       setState snd fst current published calls
       status currentStep stockSymbol stockDataContext outputs agentConfigs
       apiKeys error].
  destruct (valid (validateStockCode symbol)); cbn [negb].
  - settle_calls; cbn [fst snd current published calls agentConfigs];
      rewrite <- ?app_assoc; cbn [app];
      (split; [done|]); (split; [by eexists|]); (split; [done|]);
      intros _; eexists; (split; [reflexivity|]); by repeat constructor.
  - cbn. rewrite app_nil_r. split; [done|]. split; [by eexists|].
    split; [done|]. intros Hv. discriminate Hv.
Qed.

(** X20.  An edit of one role's configuration changes that role's entry
    only and no other field of the state.  A run started afterwards
    passes the edited configurations to its first stage; the edit
    survives [reset], is not written to storage while the state is
    [IDLE], and is replaced by the defaults when a history record is
    restored. *)
Theorem config_edit_scope
    (st : WorkflowState) (role : AgentRole) (c : AgentConfig) :
  let st' := handleConfigChange role c st in
  agentConfigs st' !! role = Some c
  /\ (forall other, other ≠ role ->
        agentConfigs st' !! other = agentConfigs st !! other)
  /\ (status st', currentStep st', stockSymbol st', stockDataContext st',
      outputs st', apiKeys st', error st')
     = (status st, currentStep st, stockSymbol st, stockDataContext st,
        outputs st, apiKeys st, error st)
  /\ agentConfigs (reset st') = agentConfigs st'
  /\ (forall item, agentConfigs (handleRestoreFromHistory item) = DEFAULT_AGENTS)
  /\ (status st = IDLE ->
        forall w now b, autoSaveEffect w now st' b = b)
  /\ (forall symbol keys data,
        valid (validateStockCode symbol) = true ->
        fetchStockData symbol (keys !! "juhe") = Resolved (Some data) ->
        calls (startRun st' symbol keys) !! 1%nat
        = Some (CallAnalysts symbol (<[role := c]> (agentConfigs st)) keys
                  (formatStockDataForPrompt data))).
Proof.
  intros st'. subst st'.
  split; [apply lookup_insert_eq|].
  split; [intros other Hne; by apply lookup_insert_ne|].
  split; [done|]. split; [done|]. split; [done|].
  split.
  { intros Hidle w now b. unfold autoSaveEffect. cbn [handleConfigChange status].
    rewrite Hidle. done. }
  intros symbol keys data Hv Hf. open_record st.
  unfold handleConfigChange.
  cbn [status currentStep stockSymbol stockDataContext outputs agentConfigs
       apiKeys error].
  unfold_run. rewrite Hv. cbn [negb]. rewrite Hf.
  destruct (runAnalystsStage _ _ _ _) as [r1|e]; [|done].
  destruct (runManagersStage _ _ _ _ _) as [r2|e]; [|done].
  destruct (runRiskStage _ _ _ _ _) as [r3|e]; [|done].
  by destruct (runGMStage _ _ _ _ _).
Qed.

End RunFacts.

Lemma fetch_nothing_stops_run_witness :
  let run := startRun (Svc := sampleServicesFetch (Resolved None))
               sampleIdle (js "SZ000001") ∅ in
  calls run = [CallFetch (js "SZ000001") None]
  /\ error (current run) = Some (MSG_NO_DATA (js "SZ000001")).
Proof.
  pose proof (fetch_nothing_stops_run
                (Svc := sampleServicesFetch (Resolved None))
                sampleIdle (js "SZ000001") ∅ eq_refl eq_refl) as Hrun.
  cbv zeta in Hrun. intros run.
  destruct Hrun as (Hc & _ & _ & He & _). by split.
Defined.

Lemma fetch_throw_stops_run_witness :
  let run := startRun
               (Svc := sampleServicesFetch (Rejected (ErrorObject (js "offline"))))
               sampleIdle (js "600519") ∅ in
  status (current run) = ERROR
  /\ error (current run) = Some (js "offline").
Proof.
  pose proof (fetch_throw_stops_run
                (Svc := sampleServicesFetch
                          (Rejected (ErrorObject (js "offline"))))
                sampleIdle (js "600519") ∅ (ErrorObject (js "offline"))
                eq_refl eq_refl) as Hrun.
  cbv zeta in Hrun. intros run.
  destruct Hrun as (_ & _ & _ & He & _). by split.
Defined.

Lemma run_reads_closure_writes_cell_witness :
  let r := {| current := sampleFailed; published := [sampleFailed];
              calls := [] |} in
  let r' := snd (handleAnalyze (Svc := sampleServices (Resolved sampleRisk))
                   sampleIdle (js " sh600519") ∅ r) in
  exists new, published r' = [sampleFailed] ++ new
    /\ Forall (fun s => stockSymbol s = js " sh600519" /\ apiKeys s = ∅
                        /\ agentConfigs s = DEFAULT_AGENTS) new.
Proof.
  intros r r'.
  apply (run_reads_closure_writes_cell
           (Svc := sampleServices (Resolved sampleRisk))
           sampleIdle (js " sh600519") ∅ r).
  reflexivity.
Defined.

Lemma run_call_order_witness :
  callKind <$> calls (startRun (Svc := sampleServices (Resolved sampleRisk))
                        sampleIdle (js "600519") ∅)
  = stageOrder.
Proof.
  apply (proj1 (proj1 (proj1 (proj2 (proj2 (proj2
           (run_call_order (Svc := sampleServices (Resolved sampleRisk))
              sampleIdle (js "600519") ∅))))) eq_refl)).
Defined.

Lemma config_edit_scope_witness :
  calls (startRun (Svc := sampleServices (Resolved sampleRisk))
           (handleConfigChange (Plat := samplePlatform) MACRO 3 sampleIdle)
           (js "600519") ∅) !! 1%nat
  = Some (CallAnalysts (H := samplePlatform) (js "600519")
            (<[MACRO := 3]> DEFAULT_AGENTS) ∅ (js "quote")).
Proof.
  apply (proj2 (proj2 (proj2 (proj2 (proj2 (proj2
           (config_edit_scope (Svc := sampleServices (Resolved sampleRisk))
              sampleIdle MACRO 3)))))) (js "600519") ∅ (js "quote")
           eq_refl eq_refl).
Defined.

(** ** Storage operations and the handlers that use them *)

Section StorageMore.
Context `{Plat : Platform}.

Lemma sortByTimestampDesc_fixed (l : list HistoryItem) :
  Descending l -> sortByTimestampDesc l = l.
Proof.
  unfold Descending. induction 1 as [|x l Hl IH Hx]; [done|].
  simpl. rewrite IH. destruct l as [|y r]; [done|]. simpl.
  apply Forall_cons in Hx as [Hy _].
  by rewrite (proj2 (Z.leb_le _ _)) by lia.
Qed.

Lemma Descending_filter (P : HistoryItem -> Prop) `{!forall x, Decision (P x)}
    (l : list HistoryItem) :
  Descending l -> Descending (filter P l).
Proof.
  unfold Descending. induction 1 as [|x l Hl IH Hx]; [constructor|].
  rewrite filter_cons. destruct (decide (P x)); [|done].
  constructor; [done|]. apply Forall_forall. intros y Hy.
  apply list_elem_of_filter in Hy as [_ Hy].
  rewrite Forall_forall in Hx. by apply Hx.
Qed.

Lemma getHistory_descending (b : Browser) : Descending (fst (getHistory b)).
Proof.
  destruct (getHistory_fst b) as [->|(data & _ & _ & ->)]; [constructor|].
  apply sortByTimestampDesc_sorted.
Qed.

Lemma getHistory_again (b : Browser) :
  fst (getHistory (snd (getHistory b))) = fst (getHistory b).
Proof.
  unfold getHistory.
  destruct (history_item (localStorage b)) as [[| |data]|] eqn:Hitem; simpl;
    rewrite ?Hitem; try done.
  destruct (JS.eqb (hs_version data) STORAGE_VERSION) eqn:Hver; simpl.
  - by rewrite Hitem, Hver.
  - done.
Qed.

Lemma getHistory_warn (w : Warning) (b : Browser) :
  fst (getHistory (warn w b)) = fst (getHistory b).
Proof.
  unfold getHistory, warn. simpl.
  destruct (history_item (localStorage b)) as [[| |data]|]; try done.
  by destruct (negb _).
Qed.

Lemma getHistory_workflow (b : Browser) :
  workflow_item (localStorage (snd (getHistory b)))
  = workflow_item (localStorage b).
Proof.
  unfold getHistory.
  destruct (history_item (localStorage b)) as [[| |data]|]; try done.
  by destruct (negb _).
Qed.

(** X6.  After a successful [deleteFromHistory], the list shown is the
    list shown before without the records of that [id]: none of them is
    left, every other record is kept, in the same descending order.
    After a failed write the list is the one shown before, and one
    warning is logged. *)
Theorem delete_then_list (id : jsstring) (b : Browser) :
  let before := fst (getHistory b) in
  fst (handleDeleteHistory true id b)
    = filter (fun item => h_id item ≠ id) before
  /\ Forall (fun item => h_id item ≠ id) (fst (handleDeleteHistory true id b))
  /\ (forall item, item ∈ before -> h_id item ≠ id ->
        item ∈ fst (handleDeleteHistory true id b))
  /\ Descending (fst (handleDeleteHistory true id b))
  /\ fst (handleDeleteHistory false id b) = before
  /\ console (deleteFromHistory false id b)
     = console b ++ [FailedToDeleteFromHistory]
  /\ console (deleteFromHistory true id b) = console b.
Proof.
  intros before. subst before.
  pose proof (getHistory_descending b) as Hsorted.
  pose proof (getHistory_again b) as Hagain.
  pose proof (getHistory_console b) as Hcons.
  unfold handleDeleteHistory, loadHistory, deleteFromHistory.
  destruct (getHistory b) as [h b0]. cbn [fst snd] in *.
  assert (fst (getHistory
                 (setHistory
                    (Some (Document
                       {| hs_version := STORAGE_VERSION;
                          items := filter (fun item => h_id item ≠ id) h |}))
                    b0))
          = filter (fun item => h_id item ≠ id) h) as Hlist.
  { unfold getHistory, setHistory. cbn [localStorage history_item hs_version].
    rewrite eqb_refl. cbn [negb fst items].
    apply sortByTimestampDesc_fixed. by apply Descending_filter. }
  rewrite Hlist. split; [done|]. split.
  { apply Forall_forall. intros item Hin.
    by apply list_elem_of_filter in Hin as [Hne _]. }
  split.
  { intros item Hin Hne. by apply list_elem_of_filter. }
  split; [by apply Descending_filter|].
  split; [by rewrite getHistory_warn|].
  split; [by rewrite <- Hcons | done].
Qed.

(** A valid symbol is not the empty string. *)
Lemma valid_symbol_truthy (symbol : jsstring) :
  valid (validateStockCode symbol) = true -> truthy symbol = true.
Proof. by destruct symbol. Qed.

(** X7.  A record written by a successful [saveToHistory] into a ledger
    of at most 50 records is in the list [getHistory] returns next; that
    list has the records of the stored ledger, in descending order, and
    at most 50 of them. *)
Theorem record_then_list (clk : Clock) (st : WorkflowState) (b : Browser) :
  (length (storedItems b) <= 50)%nat ->
  let b' := saveToHistory true clk st b in
  newItemOf clk st ∈ fst (getHistory b')
  /\ fst (getHistory b') ≡ₚ storedItems b'
  /\ Descending (fst (getHistory b'))
  /\ (length (fst (getHistory b')) <= 50)%nat.
Proof.
  intros Hcap b'. subst b'.
  rewrite getHistory_after_save.
  assert (newItemOf clk st ∈ storedItems (saveToHistory true clk st b)) as Hin.
  { rewrite saveToHistory_storedItems.
    pose proof (getHistory_length b) as Hlen.
    pose proof (findIndex_range (sameOpenRun st) (fst (getHistory b)))
      as [Hnone|Hrange].
    - rewrite Hnone. left.
    - rewrite (proj2 (Z.leb_le _ _)) by lia.
      rewrite take_ge by (rewrite length_insert; lia).
      apply list_elem_of_lookup_2
        with (Z.to_nat (findIndex (sameOpenRun st) (fst (getHistory b)))).
      apply list_lookup_insert_eq. lia. }
  split; [by rewrite sortByTimestampDesc_perm|].
  split; [apply sortByTimestampDesc_perm|].
  split; [apply sortByTimestampDesc_sorted|].
  rewrite sortByTimestampDesc_length, saveToHistory_storedItems, length_take.
  lia.
Qed.

(** X8.  When the storage holds no usable ledger (no key, empty or
    unparseable text, another version, or just cleared), a successful
    [saveToHistory] leaves a ledger of exactly the new record. *)
Theorem record_replaces_unusable_ledger
    (clk : Clock) (st : WorkflowState) (b : Browser) :
  (history_item (localStorage b) = None
   \/ history_item (localStorage b) = Some EmptyText
   \/ history_item (localStorage b) = Some Unparseable
   \/ exists data, history_item (localStorage b) = Some (Document data)
        /\ hs_version data ≠ STORAGE_VERSION) ->
  fst (getHistory b) = []
  /\ storedItems (saveToHistory true clk st b) = [newItemOf clk st]
  /\ storedItems (saveToHistory true clk st (clearHistory b))
     = [newItemOf clk st]
  /\ fst (handleClearHistory b) = [].
Proof.
  intros Hbad.
  assert (fst (getHistory b) = []) as Hempty.
  { unfold getHistory.
    destruct Hbad as [->|[->|[->|(data & -> & Hver)]]]; try done.
    by rewrite (proj2 (eqb_false _ _) Hver). }
  split; [done|]. split.
  { by rewrite saveToHistory_storedItems, Hempty. }
  split; [by rewrite saveToHistory_storedItems|done].
Qed.

(** X9.  A failed write is swallowed.  [saveState] then leaves the
    storage as it was and logs one warning; [saveToHistory] leaves the
    snapshot as it was, logs one warning, and the list [getHistory]
    returns is the one it returned before. *)
Theorem failed_writes_swallowed
    (now : Z) (clk : Clock) (st : WorkflowState) (b : Browser) :
  localStorage (saveState false now st b) = localStorage b
  /\ console (saveState false now st b) = console b ++ [FailedToSaveState]
  /\ fst (getHistory (saveToHistory false clk st b)) = fst (getHistory b)
  /\ workflow_item (localStorage (saveToHistory false clk st b))
     = workflow_item (localStorage b)
  /\ console (saveToHistory false clk st b)
     = console b ++ [FailedToSaveToHistory].
Proof.
  split; [done|]. split; [done|].
  pose proof (getHistory_again b) as Hagain.
  pose proof (getHistory_console b) as Hcons.
  pose proof (getHistory_workflow b) as Hwf.
  unfold saveToHistory. destruct (getHistory b) as [h b0]. cbn [fst snd] in *.
  split; [by rewrite getHistory_warn|]. split; [done|].
  unfold warn. cbn [console]. by rewrite Hcons.
Qed.

(** X10.  The snapshot operations and the ledger operations use different
    keys: no ledger operation changes what [loadState] returns, and no
    snapshot operation changes what [getHistory] returns. *)
Theorem snapshot_and_ledger_independent
    (w : bool) (now t : Z) (clk : Clock) (st : WorkflowState)
    (id : jsstring) (b : Browser) :
  fst (loadState now (saveToHistory w clk st b)) = fst (loadState now b)
  /\ fst (loadState now (deleteFromHistory w id b)) = fst (loadState now b)
  /\ fst (loadState now (clearHistory b)) = fst (loadState now b)
  /\ fst (loadState now (snd (getHistory b))) = fst (loadState now b)
  /\ fst (getHistory (saveState w t st b)) = fst (getHistory b)
  /\ fst (getHistory (clearState b)) = fst (getHistory b)
  /\ fst (getHistory (snd (loadState now b))) = fst (getHistory b).
Proof.
  assert (forall b1 b2 : Browser,
             workflow_item (localStorage b1) = workflow_item (localStorage b2) ->
             fst (loadState now b1) = fst (loadState now b2)) as Hload.
  { intros b1 b2 Heq. unfold loadState. rewrite Heq.
    destruct (workflow_item (localStorage b2)) as [[| |p]|]; try done.
    destruct (negb _); [done|]. by destruct (_ >? _). }
  assert (forall b1 b2 : Browser,
             history_item (localStorage b1) = history_item (localStorage b2) ->
             fst (getHistory b1) = fst (getHistory b2)) as Hlist.
  { intros b1 b2 Heq. unfold getHistory. rewrite Heq.
    destruct (history_item (localStorage b2)) as [[| |d]|]; try done.
    by destruct (negb _). }
  pose proof (getHistory_workflow b) as Hwf.
  split; [|split; [|split; [|split; [|split; [|split]]]]].
  - apply Hload. unfold saveToHistory. destruct (getHistory b) as [h b0].
    by destruct w.
  - apply Hload. unfold deleteFromHistory. destruct (getHistory b) as [h b0].
    by destruct w.
  - by apply Hload.
  - by apply Hload.
  - apply Hlist. unfold saveState. by destruct w.
  - by apply Hlist.
  - apply Hlist. unfold loadState.
    destruct (workflow_item (localStorage b)) as [[| |p]|]; try done.
    destruct (negb _); [done|]. by destruct (_ >? _).
Qed.

(** X11.  Whenever the storage holds no snapshot of the current version
    (no key, empty or unparseable text, another version), [loadState]
    returns nothing and [getInitialState] gives the cold-start state:
    [IDLE], step 0, empty symbol, context, outputs and credentials, the
    default configurations.  A snapshot of another version is deleted
    whatever its age; missing, empty and unparseable content is left as
    it is. *)
Theorem cold_start_cases (now : Z) (b : Browser) :
  (workflow_item (localStorage b) = None
   \/ workflow_item (localStorage b) = Some EmptyText
   \/ workflow_item (localStorage b) = Some Unparseable ->
   loadState now b = (None, b) /\ getInitialState now b = (coldStart, b))
  /\ (forall persisted,
        workflow_item (localStorage b) = Some (Document persisted) ->
        version persisted ≠ STORAGE_VERSION ->
        loadState now b = (None, clearState b)
        /\ getInitialState now b = (coldStart, clearState b)).
Proof.
  split.
  - intros Hbad. unfold getInitialState, loadState.
    by destruct Hbad as [->|[->| ->]].
  - intros persisted Hitem Hver. unfold getInitialState, loadState, clearState.
    rewrite Hitem, (proj2 (eqb_false _ _) Hver). done.
Qed.

(** X12.  [reset] keeps the configurations and the credentials in memory
    and clears the rest; it deletes the snapshot and leaves the ledger
    alone.  The reset state is [IDLE], so the auto-save effect does not
    write it, and the next [getInitialState] gives the cold-start state
    with the default configurations. *)
Theorem reset_then_reload
    (w : bool) (now now' : Z) (prev : WorkflowState) (b : Browser) :
  let st' := fst (resetApp prev b) in
  let b' := snd (resetApp prev b) in
  agentConfigs st' = agentConfigs prev
  /\ apiKeys st' = apiKeys prev
  /\ (status st', currentStep st', stockSymbol st', stockDataContext st',
      outputs st', error st') = (IDLE, 0, [], [], ∅, None)
  /\ workflow_item (localStorage b') = None
  /\ history_item (localStorage b') = history_item (localStorage b)
  /\ autoSaveEffect w now st' b' = b'
  /\ getInitialState now' (autoSaveEffect w now st' b') = (coldStart, b').
Proof. by repeat split. Qed.

(** X13.  Through the app's effect only completed runs reach the ledger:
    a state that is not [COMPLETED], or has an empty symbol, is not
    recorded.  A ledger of completed records stays one under the effect,
    under deletion and under clearing; on such a ledger a completed run
    never overwrites a record: its record, with [completedAt] set, goes
    in front of the first 49 records of the list read. *)
Theorem ledger_all_completed
    (w : bool) (clk : Clock) (st : WorkflowState) (id : jsstring)
    (b : Browser) :
  (status st ≠ COMPLETED \/ stockSymbol st = [] ->
     historyEffect w clk st b = b)
  /\ (AllCompleted (storedItems b) ->
      AllCompleted (storedItems (historyEffect w clk st b))
      /\ AllCompleted (storedItems (deleteFromHistory w id b))
      /\ AllCompleted (storedItems (clearHistory b))
      /\ (status st = COMPLETED -> stockSymbol st ≠ [] ->
          storedItems (historyEffect true clk st b)
          = newItemOf clk st :: take 49 (fst (getHistory b))
          /\ h_completedAt (newItemOf clk st) = Some (t_done clk)
          /\ h_status (newItemOf clk st) = COMPLETED)).
Proof.
  split.
  { intros [Hst|Hsym]; unfold historyEffect.
    - by rewrite (bool_decide_eq_false_2 _ Hst).
    - rewrite Hsym. by rewrite andb_false_r. }
  intros Hall.
  assert (AllCompleted (fst (getHistory b))) as Hread.
  { destruct (getHistory_fst b) as [->|(data & Hitem & _ & ->)];
      [constructor|].
    unfold AllCompleted. cbn [fst]. rewrite sortByTimestampDesc_perm.
    unfold storedItems in Hall. by rewrite Hitem in Hall. }
  assert (AllCompleted (storedItems (snd (getHistory b)))) as Hafter.
  { unfold getHistory, storedItems in *.
    destruct (history_item (localStorage b)) as [[| |data]|] eqn:Hitem;
      simpl; rewrite ?Hitem; try done.
    destruct (negb _); simpl; [constructor | by rewrite Hitem]. }
  assert (findIndex (sameOpenRun st) (fst (getHistory b)) = -1) as Hnone.
  { apply findIndex_none. eapply Forall_impl; [exact Hread|].
    intros it Hit. apply sameOpenRun_false. by intros _. }
  assert (forall w', status st = COMPLETED ->
            AllCompleted (storedItems (saveToHistory w' clk st b))) as Hsave.
  { intros [|] Hst.
    - rewrite saveToHistory_storedItems, Hnone.
      change (0 <=? -1) with false. cbn iota.
      change (take 50 (newItemOf clk st :: fst (getHistory b)))
        with (newItemOf clk st :: take 49 (fst (getHistory b))).
      constructor; [done|].
      apply Forall_forall. intros it Hit.
      apply (subseteq_take 49) in Hit.
      unfold AllCompleted in Hread. rewrite Forall_forall in Hread.
      by apply Hread.
    - unfold saveToHistory. destruct (getHistory b) as [h b0]. exact Hafter. }
  split.
  { unfold historyEffect.
    destruct (bool_decide (status st = COMPLETED)) eqn:Hst; [|done].
    apply bool_decide_eq_true in Hst.
    destruct (truthy (stockSymbol st)); [|done]. by apply Hsave. }
  split.
  { unfold deleteFromHistory. destruct (getHistory b) as [h b0].
    destruct w; [|exact Hafter].
    unfold storedItems. cbn. apply Forall_forall. intros it Hit.
    apply list_elem_of_filter in Hit as [_ Hit].
    unfold AllCompleted in Hread. rewrite Forall_forall in Hread.
    by apply Hread. }
  split; [constructor|].
  intros Hst Hsym. unfold historyEffect.
  rewrite (bool_decide_eq_true_2 _ Hst).
  destruct (stockSymbol st) as [|c r] eqn:Hs; [done|]. cbn [truthy andb].
  rewrite saveToHistory_storedItems, Hnone.
  split; [done|]. split; [|done].
  unfold newItemOf. cbn [h_completedAt].
  by rewrite (bool_decide_eq_true_2 _ Hst).
Qed.

End StorageMore.

(** ** The decision label and the validator's verdicts *)

Section LabelFacts.

Lemma includes_Substring (s p : jsstring) :
  includes s p = true <-> Substring p s.
Proof.
  unfold Substring. induction s as [|c r IH].
  - cbn [includes]. rewrite orb_false_r, startsWith_app. split.
    + intros [t Ht]. symmetry in Ht. apply app_eq_nil in Ht as [-> ->].
      by exists [], [].
    + intros (a & t & Ht). symmetry in Ht.
      apply app_eq_nil in Ht as [-> Ht]. apply app_eq_nil in Ht as [-> ->].
      by exists [].
  - cbn [includes]. rewrite orb_true_iff, startsWith_app, IH. split.
    + intros [[t Ht]|(a & t & Ht)].
      * by exists [], t.
      * exists (c :: a), t. by rewrite Ht.
    + intros ([|c' a] & t & Ht).
      * left. by exists t.
      * right. injection Ht as -> Ht. by exists a, t.
Qed.

Lemma includes_not_Substring (s p : jsstring) :
  includes s p = false <-> ~ Substring p s.
Proof. by rewrite <- includes_Substring, not_true_iff_false. Qed.

(** X14.  The decision label is read from the general manager's text
    only.  The buy marker wins over the sell marker, which wins over the
    hold marker; without any marker, or without a text, the label is the
    "analyzing" one; the texts of the other roles play no part. *)
Theorem gmDecision_precedence (out : Outputs) :
  let text := default [] (out !! GM) in
  (Substring MARK_BUY text -> gmDecisionOf out = LABEL_BUY)
  /\ (~ Substring MARK_BUY text -> Substring MARK_SELL text ->
      gmDecisionOf out = LABEL_SELL)
  /\ (~ Substring MARK_BUY text -> ~ Substring MARK_SELL text ->
      Substring MARK_HOLD text -> gmDecisionOf out = LABEL_HOLD)
  /\ (~ Substring MARK_BUY text -> ~ Substring MARK_SELL text ->
      ~ Substring MARK_HOLD text -> gmDecisionOf out = LABEL_ANALYZING)
  /\ (out !! GM = None -> gmDecisionOf out = LABEL_ANALYZING)
  /\ (forall role t, role ≠ GM ->
        gmDecisionOf (<[role := t]> out) = gmDecisionOf out).
Proof.
  intros text. subst text. unfold gmDecisionOf.
  split; [|split; [|split; [|split; [|split]]]].
  - intros Hb. by rewrite (proj2 (includes_Substring _ _) Hb).
  - intros Hb Hs. rewrite (proj2 (includes_not_Substring _ _) Hb).
    by rewrite (proj2 (includes_Substring _ _) Hs).
  - intros Hb Hs Hh. rewrite (proj2 (includes_not_Substring _ _) Hb).
    rewrite (proj2 (includes_not_Substring _ _) Hs).
    by rewrite (proj2 (includes_Substring _ _) Hh).
  - intros Hb Hs Hh. rewrite (proj2 (includes_not_Substring _ _) Hb).
    rewrite (proj2 (includes_not_Substring _ _) Hs).
    by rewrite (proj2 (includes_not_Substring _ _) Hh).
  - intros ->. reflexivity.
  - intros role t Hne. by rewrite lookup_insert_ne.
Qed.

Lemma trimStart_no_space (s : jsstring) :
  Forall (fun c => isWhiteSpace c = false) s -> trimStart s = s.
Proof. intros [|c r Hc _]; [done|]. by apply trimStart_clean. Qed.

Lemma normalise_fixed (s : jsstring) :
  Forall (fun c => isWhiteSpace c = false /\ lowerUnit c = c) s ->
  normalise s = s.
Proof.
  intros Hs. unfold normalise, trim, trimEnd.
  assert (Forall (fun c => isWhiteSpace c = false) s) as Hw
    by (eapply Forall_impl; [exact Hs|]; by intros c [? _]).
  rewrite (trimStart_no_space s Hw).
  rewrite trimStart_no_space by (by apply Forall_rev).
  rewrite rev_involutive. unfold toLowerCase.
  induction Hs as [|c r [_ Hc] _ IH]; [done|].
  simpl. rewrite Hc. f_equal. apply IH. by apply Forall_cons in Hw as [_ Hw].
Qed.

Lemma digit_plain (c : N) :
  IsDigit c -> isWhiteSpace c = false /\ lowerUnit c = c.
Proof.
  unfold IsDigit. intros Hc. split.
  - apply isWhiteSpace_printable. lia.
  - destruct (lowerUnit_cases c) as [[Hr _]|[_ ->]]; [lia|done].
Qed.

(** X15.  The three messages of the validator name the three ways a
    symbol fails, read on its trimmed lower-case form: a market prefix
    followed by anything but six digits; no market prefix and not six
    digits; six digits whose first is not an allowed one.  No message
    comes with an accepted symbol. *)
Theorem validateStockCode_messages (symbol : jsstring) :
  let code := normalise symbol in
  (message (validateStockCode symbol) = Some MSG_BAD_SUFFIX
   <-> exists p r, p ∈ marketPrefixes /\ code = p ++ r /\ ~ SixDigits r)
  /\ (message (validateStockCode symbol) = Some MSG_BAD_LENGTH
      <-> (forall p r, p ∈ marketPrefixes -> code ≠ p ++ r)
          /\ ~ SixDigits code)
  /\ (message (validateStockCode symbol) = Some MSG_BAD_LEADING
      <-> SixDigits code
          /\ ~ exists c, head code = Some c /\ c ∈ allowedLeadingDigits)
  /\ (message (validateStockCode symbol) = None
      <-> valid (validateStockCode symbol) = true).
Proof.
  intros code. unfold validateStockCode. fold (normalise symbol). fold code.
  destruct (startsWith code (js "sh") || startsWith code (js "sz")) eqn:Hpre.
  - apply prefix_cases in Hpre as (p & Hp & Hs).
    pose proof (prefixed_not_digits _ _ Hp Hs) as Hnd.
    apply startsWith_app in Hs as [r Hr].
    assert (substring code 2 = r) as Hsub.
    { unfold substring. by rewrite Hr, <- (prefix_length p Hp), drop_app_length. }
    rewrite Hsub.
    destruct (sixDigits r) eqn:H6; cbn [negb valid message].
    + apply sixDigits_SixDigits in H6.
      split; [|split; [|split]]; (split; [done|]).
      * intros (p' & r' & Hp' & Hc & Hn). destruct Hn.
        rewrite Hc in Hr. apply app_inj_1 in Hr as [_ ->]; [done|].
        by rewrite (prefix_length p Hp), (prefix_length p' Hp').
      * intros [Hno _]. by destruct (Hno p r Hp).
      * by intros [Hd _].
      * done.
    + apply not_true_iff_false in H6. rewrite sixDigits_SixDigits in H6.
      split; [|split; [|split]].
      * split; [|done]. intros _. by exists p, r.
      * split; [discriminate|]. intros [Hno _]. by destruct (Hno p r Hp).
      * split; [discriminate|]. by intros [Hd _].
      * split; discriminate.
  - assert (forall p r, p ∈ marketPrefixes -> code ≠ p ++ r) as Hno.
    { intros p r Hp Hc.
      assert (startsWith code (js "sh") || startsWith code (js "sz") = true).
      { apply prefix_cases. exists p. split; [done|].
        apply startsWith_app. by exists r. }
      congruence. }
    destruct (sixDigits code) eqn:H6; cbn [negb valid message].
    + apply sixDigits_SixDigits in H6.
      destruct (existsb (JS.eqb (charAt code 0)) allowedFirstDigits) eqn:Hf;
        cbn [negb valid message].
      * apply allowedFirstDigit_head in Hf.
        split; [|split; [|split]]; (split; [done|]).
        -- intros (p & r & Hp & Hc & _). by destruct (Hno p r Hp).
        -- by intros [_ Hn].
        -- by intros [_ Hn].
        -- done.
      * apply not_true_iff_false in Hf. rewrite allowedFirstDigit_head in Hf.
        split; [|split; [|split]].
        -- split; [discriminate|].
           intros (p & r & Hp & Hc & _). by destruct (Hno p r Hp).
        -- split; [discriminate|]. by intros [_ Hn].
        -- split; [|done]. by intros _.
        -- split; discriminate.
    + apply not_true_iff_false in H6. rewrite sixDigits_SixDigits in H6.
      split; [|split; [|split]].
      * split; [discriminate|].
        intros (p & r & Hp & Hc & _). by destruct (Hno p r Hp).
      * split; [|done]. by intros _.
      * split; [discriminate|]. by intros [Hd _].
      * split; discriminate.
Qed.

(** X16.  The rule on the first digit is applied to bare codes only: any
    six digits are accepted after either market prefix, while six digits
    alone are accepted exactly when the first is 0, 1, 2, 3, 6, 8 or 9. *)
Theorem prefixed_codes_skip_leading_rule (d : jsstring) :
  SixDigits d ->
  (forall p, p ∈ marketPrefixes -> valid (validateStockCode (p ++ d)) = true)
  /\ (valid (validateStockCode d) = true
      <-> exists c, head d = Some c /\ c ∈ allowedLeadingDigits).
Proof.
  intros Hd.
  assert (Forall (fun c => isWhiteSpace c = false /\ lowerUnit c = c) d) as Hplain.
  { destruct Hd as [_ Hd]. eapply Forall_impl; [exact Hd|]. apply digit_plain. }
  split.
  - intros p Hp. apply accepts_grammar.
    rewrite normalise_fixed.
    + left. by exists p, d.
    + apply Forall_app. split; [|done].
      unfold marketPrefixes in Hp. rewrite !elem_of_cons in Hp.
      destruct Hp as [->|[->|Hp]]; [| |by apply elem_of_nil in Hp];
        repeat constructor.
  - rewrite accepts_grammar, (normalise_fixed d Hplain).
    unfold SymbolGrammar. split.
    + intros [(p & r & Hp & Hc & _)|[_ Hh]]; [|done].
      destruct (prefixed_not_digits d p Hp); [|done].
      apply startsWith_app. by exists r.
    + intros Hh. by right.
Qed.

End LabelFacts.

(** ** The Gemini route *)

Module GeminiFacts.
Import Gemini.

Section Facts.
Context `{Numbers : JsNumbers}.

Implicit Types (env : option jsstring) (req : Request) (b : Body).
Implicit Types (gen : GenerateCall -> Settled (option jsstring)).

(** X17.  Every response carries the three CORS headers and at most one
    SDK call is made.  A request whose method is not POST never reaches
    the SDK and never reads the body: OPTIONS is answered 200 with no
    payload, any other method 405 with the "Method not allowed" error.
    A POST without a body makes the handler throw. *)
Theorem method_gate env gen req :
  (forall res calls, handler env gen req = Responded res calls ->
     headers res = corsHeaders /\ (length calls <= 1)%nat)
  /\ (method req = js "OPTIONS" ->
      handler env gen req
      = Responded {| headers := corsHeaders; statusCode := 200;
                     payload := Ended |} [])
  /\ (method req ≠ js "OPTIONS" -> method req ≠ js "POST" ->
      handler env gen req
      = Responded {| headers := corsHeaders; statusCode := 405;
                     payload := JsonPayload false None (Some MSG_METHOD) |} [])
  /\ (method req = js "POST" -> body req = None ->
      handler env gen req = Crashed).
Proof.
  unfold handler. split; [|split; [|split]].
  - intros res calls.
    destruct (JS.eqb (method req) (js "OPTIONS"));
      [intros [= <- <-]; split; [done | simpl; lia]|].
    destruct (negb (JS.eqb (method req) (js "POST")));
      [intros [= <- <-]; split; [done | simpl; lia]|].
    destruct (body req) as [b|]; [|done].
    destruct (negb (truthyValue _));
      [intros [= <- <-]; split; [done | simpl; lia]|].
    destruct (gen _); intros [= <- <-]; split; done || (simpl; lia).
  - intros ->. reflexivity.
  - intros Ho Hp.
    rewrite (proj2 (eqb_false _ _) Ho), (proj2 (eqb_false _ _) Hp). done.
  - intros -> ->. reflexivity.
Qed.

(** X18.  On a POST with a body, a non-empty server-side key is the one
    the SDK is called with, whatever key the request carries; without
    one (unset or empty) the request's key is used if it is truthy;
    with neither, the answer is 500 with the configuration message and
    the SDK is not called. *)
Theorem key_precedence env gen req b :
  method req = js "POST" -> body req = Some b ->
  (forall k, env = Some k -> k ≠ [] ->
     exists res call, handler env gen req = Responded res [call]
       /\ c_apiKey call = Some (JString k))
  /\ (env = None \/ env = Some [] -> truthyValue (apiKey b) = true ->
      exists res call, handler env gen req = Responded res [call]
        /\ c_apiKey call = apiKey b)
  /\ (env = None \/ env = Some [] -> truthyValue (apiKey b) = false ->
      handler env gen req
      = Responded {| headers := corsHeaders; statusCode := 500;
                     payload := JsonPayload false None (Some MSG_NO_KEY) |} []).
Proof.
  intros Hm Hb. unfold handler. rewrite Hm, Hb.
  change (JS.eqb (js "POST") (js "OPTIONS")) with false.
  change (JS.eqb (js "POST") (js "POST")) with true. cbn [negb].
  split; [|split].
  - intros k -> Hk.
    assert (truthyValue (Some (JString k)) = true) as Ht
      by (by destruct k).
    assert (jsOr (JString <$> Some k) (apiKey b) = Some (JString k)) as ->
      by (unfold jsOr; cbn [fmap option_fmap option_map]; by rewrite Ht).
    rewrite Ht. cbn [negb].
    destruct (gen _) eqn:Hg; do 2 eexists; split; reflexivity.
  - intros Henv Hkey.
    assert (jsOr (JString <$> env) (apiKey b) = apiKey b) as ->
      by (by destruct Henv as [->| ->]).
    rewrite Hkey. cbn [negb].
    destruct (gen _) eqn:Hg; do 2 eexists; split; reflexivity.
  - intros Henv Hkey.
    assert (jsOr (JString <$> env) (apiKey b) = apiKey b) as ->
      by (by destruct Henv as [->| ->]).
    by rewrite Hkey.
Qed.

(** X19.  On a POST with a body and a usable key exactly one SDK call is
    made.  Its model, temperature and tools are the request's when they
    are truthy and the defaults otherwise, so a requested temperature of
    zero is replaced by 0.7; the prompt is passed as it is.  If the call
    resolves the answer is 200 with [success] and the text (the empty
    string when there is none); if it fails the answer is 500 with the
    failure's message. *)
Theorem call_and_reply env gen req b :
  method req = js "POST" -> body req = Some b ->
  truthyValue (jsOr (JString <$> env) (apiKey b)) = true ->
  exists res call,
    handler env gen req = Responded res [call]
    /\ c_baseUrl call = BASE_URL
    /\ c_contents call = prompt b
    /\ c_model call
       = (if truthyValue (model b) then model b else Some DEFAULT_MODEL)
    /\ c_temperature call
       = (if truthyValue (temperature b) then temperature b
          else Some DEFAULT_TEMPERATURE)
    /\ c_tools call
       = (if truthyValue (tools b) then tools b else Some DEFAULT_TOOLS)
    /\ (forall n, temperature b = Some (JNumber n) -> isZero n = true ->
          c_temperature call = Some DEFAULT_TEMPERATURE)
    /\ (forall t, gen call = Fulfilled (Some t) -> t ≠ [] ->
          statusCode res = 200
          /\ payload res = JsonPayload true (Some t) None)
    /\ (gen call = Fulfilled None \/ gen call = Fulfilled (Some []) ->
          statusCode res = 200
          /\ payload res = JsonPayload true (Some []) None)
    /\ (forall message, gen call = Failed message ->
          statusCode res = 500
          /\ payload res = JsonPayload false None (Some message)).
Proof.
  intros Hm Hb Hkey. unfold handler. rewrite Hm, Hb.
  change (JS.eqb (js "POST") (js "OPTIONS")) with false.
  change (JS.eqb (js "POST") (js "POST")) with true. cbn [negb].
  rewrite Hkey. cbn [negb].
  match goal with
  | |- context [gen ?c] => set (call := c)
  end.
  assert (forall n, temperature b = Some (JNumber n) -> isZero n = true ->
            c_temperature call = Some DEFAULT_TEMPERATURE) as Hzero.
  { intros n Ht Hz. unfold call. cbn [c_temperature]. unfold jsOr.
    rewrite Ht. cbn [truthyValue]. by rewrite Hz. }
  destruct (gen call) as [[t|]|message] eqn:Hg;
    eexists; exists call; (split; [reflexivity|]);
    repeat (split; [done|]); cbn [statusCode payload].
  - split; [|split].
    + intros t' Heq Hne. rewrite Hg in Heq. simplify_eq. by destruct t'.
    + intros [Heq|Heq]; rewrite Hg in Heq; simplify_eq. done.
    + intros m Heq. rewrite Hg in Heq. simplify_eq.
  - split; [|split].
    + intros t' Heq Hne. rewrite Hg in Heq. simplify_eq.
    + done.
    + intros m Heq. rewrite Hg in Heq. simplify_eq.
  - split; [|split].
    + intros t' Heq Hne. rewrite Hg in Heq. simplify_eq.
    + intros [Heq|Heq]; rewrite Hg in Heq; simplify_eq.
    + intros m Heq. rewrite Hg in Heq. by simplify_eq.
Qed.

End Facts.

Lemma method_gate_witness :
  handler (Numbers := sampleNumbers) (Some (js "server-key"))
    (fun _ => Fulfilled None)
    {| method := js "GET"; body := None |}
  = Responded {| headers := corsHeaders; statusCode := 405;
                 payload := JsonPayload false None (Some MSG_METHOD) |} [].
Proof.
  apply (proj1 (proj2 (proj2 (method_gate (Numbers := sampleNumbers)
                                (Some (js "server-key"))
                                (fun _ => Fulfilled None)
                                {| method := js "GET"; body := None |}))));
    discriminate.
Defined.

Lemma key_precedence_witness :
  exists res call,
    handler (Numbers := sampleNumbers) (Some (js "server-key"))
      (fun _ => Fulfilled (Some (js "ok")))
      {| method := js "POST";
         body := Some (sampleBody (Some (JString (js "client-key"))) None) |}
    = Responded res [call]
    /\ c_apiKey call = Some (JString (js "server-key")).
Proof.
  apply (proj1 (key_precedence (Numbers := sampleNumbers)
                  (Some (js "server-key"))
                  (fun _ => Fulfilled (Some (js "ok")))
                  {| method := js "POST";
                     body := Some (sampleBody
                                     (Some (JString (js "client-key"))) None) |}
                  (sampleBody (Some (JString (js "client-key"))) None)
                  eq_refl eq_refl) (js "server-key") eq_refl).
  discriminate.
Defined.

Lemma call_and_reply_witness :
  exists res call,
    handler (Numbers := sampleNumbers) None
      (fun _ => Failed (js "quota"))
      {| method := js "POST";
         body := Some (sampleBody (Some (JString (js "client-key")))
                         (Some sampleZero)) |}
    = Responded res [call]
    /\ c_temperature call = Some DEFAULT_TEMPERATURE
    /\ statusCode res = 500.
Proof.
  destruct (call_and_reply (Numbers := sampleNumbers) None
              (fun _ => Failed (js "quota"))
              {| method := js "POST";
                 body := Some (sampleBody (Some (JString (js "client-key")))
                                 (Some sampleZero)) |}
              (sampleBody (Some (JString (js "client-key")))
                 (Some sampleZero))
              eq_refl eq_refl eq_refl)
    as (res & call & Hres & _ & _ & _ & _ & _ & Hzero & _ & _ & Hfail).
  exists res, call. split; [exact Hres|]. split.
  - apply (Hzero 0%Z); reflexivity.
  - by destruct (Hfail (js "quota")).
Defined.

End GeminiFacts.

(** Concrete instances on the sample platform. *)

Lemma delete_then_list_witness :
  fst (handleDeleteHistory true (js "600519-2000")
         (browserWith [sampleRecord; sampleOpenRecord]))
  = [sampleRecord].
Proof.
  rewrite (proj1 (delete_then_list (js "600519-2000")
                    (browserWith [sampleRecord; sampleOpenRecord]))).
  reflexivity.
Defined.

Lemma record_then_list_witness :
  newItemOf (sampleClock 3000) sampleCompleted
    ∈ fst (getHistory (saveToHistory true (sampleClock 3000) sampleCompleted
                         (browserWith (sampleLedger 50)))).
Proof.
  apply (record_then_list (sampleClock 3000) sampleCompleted
           (browserWith (sampleLedger 50))).
  simpl. lia.
Defined.

Lemma record_replaces_unusable_ledger_witness :
  storedItems (saveToHistory true (sampleClock 3000) sampleCompleted
                 (setHistory (Some Unparseable) emptyBrowser))
  = [newItemOf (sampleClock 3000) sampleCompleted].
Proof.
  apply (record_replaces_unusable_ledger (sampleClock 3000) sampleCompleted
           (setHistory (Some Unparseable) emptyBrowser)).
  right. right. left. reflexivity.
Defined.

Lemma cold_start_cases_witness :
  getInitialState 5000 (setWorkflow (Some Unparseable) emptyBrowser)
  = (coldStart, setWorkflow (Some Unparseable) emptyBrowser)
  /\ getInitialState 5000
       (setWorkflow (Some (Document {| version := js "v0"; timestamp := 4000;
                                       state := restoreFromHistory sampleRecord |}))
          emptyBrowser)
     = (coldStart, emptyBrowser).
Proof.
  split.
  - apply (proj1 (cold_start_cases 5000
                    (setWorkflow (Some Unparseable) emptyBrowser))).
    right. right. reflexivity.
  - apply (proj2 (cold_start_cases 5000
                    (setWorkflow
                       (Some (Document {| version := js "v0"; timestamp := 4000;
                                          state := restoreFromHistory sampleRecord |}))
                       emptyBrowser))
             {| version := js "v0"; timestamp := 4000;
                state := restoreFromHistory sampleRecord |} eq_refl).
    discriminate.
Defined.

Lemma ledger_all_completed_witness :
  storedItems (historyEffect true (sampleClock 3000) sampleCompleted
                 (browserWith [sampleRecord]))
  = [newItemOf (sampleClock 3000) sampleCompleted; sampleRecord]
  /\ historyEffect true (sampleClock 3000) sampleFailed emptyBrowser
     = emptyBrowser.
Proof.
  split.
  - apply (proj2 (ledger_all_completed true (sampleClock 3000) sampleCompleted
                    [] (browserWith [sampleRecord]))).
    + repeat constructor.
    + reflexivity.
    + discriminate.
  - apply (proj1 (ledger_all_completed true (sampleClock 3000) sampleFailed
                    [] emptyBrowser)).
    left. discriminate.
Defined.

Lemma gmDecision_precedence_witness :
  gmDecisionOf {[ GM := js "结论：🔴 卖出，而非 🟢 买入" ]} = LABEL_BUY.
Proof.
  apply (proj1 (gmDecision_precedence
                  {[ GM := js "结论：🔴 卖出，而非 🟢 买入" ]})).
  exists (js "结论：🔴 卖出，而非 "), []. reflexivity.
Defined.

Lemma prefixed_codes_skip_leading_rule_witness :
  valid (validateStockCode (js "sh400000")) = true
  /\ ~ valid (validateStockCode (js "400000")) = true.
Proof.
  assert (SixDigits (js "400000")) as Hd.
  { split; [reflexivity|]. repeat constructor; vm_compute; discriminate. }
  destruct (prefixed_codes_skip_leading_rule (js "400000") Hd) as [Hp Hb].
  split.
  - apply (Hp (js "sh")). left.
  - intros Hv. apply Hb in Hv as (c & Hc & Hin). injection Hc as <-.
    unfold allowedLeadingDigits in Hin. rewrite !elem_of_cons in Hin.
    repeat (destruct Hin as [Hin|Hin]; [discriminate Hin|]).
    by apply elem_of_nil in Hin.
Defined.
